(** * KoboldApiLLM: a shallow embedding of [helpers/koboldai.py]

    The module is a client adapter for the Kobold family of inference
    servers.  Python strings are lists of Unicode code points, decoded JSON
    payloads are a small inductive type, the client object is a record whose
    shared registry of generation keys is a finite map, and the methods live
    in a state-and-exception monad that also records the observable effects
    (prints, stores, HTTP requests) in order. *)

From Stdlib Require Import String Ascii ZArith Floats.
From stdpp Require Import base option list gmap.

Set Warnings "-register-all,-inexact-float".
Local Open Scope Z_scope.

(** ** Python strings *)

Module PyStr.

(** A [str] is a sequence of code points. *)
Definition char : Type := N.
Definition pystr : Type := list char.

(** Literals are written [str "..."] (one code point per byte of the
    literal, which is exact for the ASCII literals of the source). *)
Definition str (s : string) : pystr :=
  List.map N_of_ascii (list_ascii_of_string s).

(** What [str.strip()] and [str.rstrip()] treat as whitespace when called
    without an argument (the code points for which [str.isspace] holds). *)
Definition is_space (c : char) : bool :=
  ((9 <=? c) && (c <=? 13) || (28 <=? c) && (c <=? 32)
   || (c =? 133) || (c =? 160) || (c =? 5760)
   || (8192 <=? c) && (c <=? 8202)
   || (c =? 8232) || (c =? 8233) || (c =? 8239) || (c =? 8287)
   || (c =? 12288))%N.

(** [s.lstrip()] *)
Fixpoint lstrip (s : pystr) : pystr :=
  match s with
  | [] => []
  | c :: r => if is_space c then lstrip r else s
  end.

(** [s.rstrip()] *)
Fixpoint rstrip (s : pystr) : pystr :=
  match s with
  | [] => []
  | c :: r =>
      match rstrip r with
      | [] => if is_space c then [] else [c]
      | r' => c :: r'
      end
  end.

(** [s.strip()] *)
Definition strip (s : pystr) : pystr := rstrip (lstrip s).

(** [s.endswith(suf)] *)
Definition endswith (s suf : pystr) : bool := bool_decide (suf `suffix_of` s).

(** [s[:-n]] for [n = len(...)], a non-negative number.  Python reads
    [s[:-0]] as [s[:0]], the empty string; for [n > len(s)] the bound is
    clipped to [0]. *)
Definition slice_to_neg (s : pystr) (n : nat) : pystr :=
  match n with
  | O => []
  | _ => take (length s - n) s
  end.

(** [sub in s] for two strings. *)
Fixpoint contains (s sub : pystr) : bool :=
  bool_decide (sub `prefix_of` s)
  || match s with [] => false | _ :: r => contains r sub end.

End PyStr.
Export PyStr.

(** ** Endpoint normalization *)

Definition clean_url (url : pystr) : pystr :=
  if endswith url (str "/api") then slice_to_neg url 4
  else if endswith url (str "/") then slice_to_neg url 1
  else url.

(** ** Decoded JSON payloads and Python's operations on them *)

Inductive json : Type :=
| JNull
| JBool (b : bool)
| JInt (n : Z)
| JFloat (f : float)
| JStr (s : pystr)
| JArr (l : list json)
| JObj (d : list (pystr * json)).

(** A [dict] with string keys, in insertion order; a key occurs once. *)
Definition dict : Type := list (pystr * json).

Fixpoint dict_get (d : dict) (k : pystr) : option json :=
  match d with
  | [] => None
  | (k', v) :: r => if bool_decide (k' = k) then Some v else dict_get r k
  end.

(** [d[k] = v] *)
Fixpoint dict_set (d : dict) (k : pystr) (v : json) : dict :=
  match d with
  | [] => [(k, v)]
  | (k', v') :: r =>
      if bool_decide (k' = k) then (k, v) :: r else (k', v') :: dict_set r k v
  end.

(** The exceptions that the module raises or that reach it from the
    interpreter and from the HTTP libraries.  All of them derive from
    [Exception].

    [ValueError m] is a [ValueError] that the module itself constructs (the
    two [raise ValueError(...)] of the source), with its message [m].  The
    other constructors are the exceptions of the interpreter and of the HTTP
    library in use, which is requests in [_call], [check_version] and [_stop]
    and aiohttp in [_acall]:
    - [HTTPError] is what [raise_for_status] raises: [requests.HTTPError] in
      one library, [aiohttp.ClientResponseError] in the other, two classes;
    - [JSONDecodeError] is what [response.json()] raises: in requests its
      [JSONDecodeError], which derives from [ValueError]; in aiohttp a
      [ContentTypeError] or the [JSONDecodeError] of the json module;
    - [ConnectionError] is the connection error of the library;
    - [LibraryError cls] is any other exception that the call of the library
      raises instead of giving a response, named by its class: for requests
      [InvalidJSONError] (a body with a float that is not finite, raised
      before anything is sent), [MissingSchema], [InvalidURL], [Timeout],
      [TooManyRedirects] and so on.
    An exception of one library is not an exception of the other, also where
    the constructor is the same. *)
Inductive value_error : Type :=
| UnexpectedResponseFormat (json_response : json)
| EndpointNotRunning.

Inductive exn : Type :=
| HTTPError (status : Z)
| ConnectionError
| JSONDecodeError
| ValueError (m : value_error)
| TypeError
| KeyError (k : pystr)
| KeyErrorInt (i : nat)
| IndexError
| AttributeError
| UnboundLocalError (name : pystr)
| LibraryError (cls : pystr).

Inductive res (A : Type) : Type :=
| Ok (a : A)
| Raise (e : exn).
Arguments Ok {A} a.
Arguments Raise {A} e.

(** [k in v] for a string [k] *)
Definition py_in (k : pystr) (v : json) : res bool :=
  match v with
  | JObj d => Ok (bool_decide (is_Some (dict_get d k)))
  | JArr l =>
      Ok (existsb (fun e => match e with
                            | JStr s => bool_decide (s = k)
                            | _ => false
                            end) l)
  | JStr s => Ok (contains s k)
  | _ => Raise TypeError
  end.

(** [len(v)] *)
Definition py_len (v : json) : res Z :=
  match v with
  | JObj d => Ok (Z.of_nat (length d))
  | JArr l => Ok (Z.of_nat (length l))
  | JStr s => Ok (Z.of_nat (length s))
  | _ => Raise TypeError
  end.

(** [v[k]] for a string [k] *)
Definition py_getitem_str (v : json) (k : pystr) : res json :=
  match v with
  | JObj d => match dict_get d k with Some x => Ok x | None => Raise (KeyError k) end
  | _ => Raise TypeError
  end.

(** [v[i]] for a non-negative integer [i] *)
Definition py_getitem_int (v : json) (i : nat) : res json :=
  match v with
  | JArr l => match l !! i with Some x => Ok x | None => Raise IndexError end
  | JStr s => match s !! i with Some c => Ok (JStr [c]) | None => Raise IndexError end
  | JObj _ => Raise (KeyErrorInt i)
  | _ => Raise TypeError
  end.

(** [v.strip()] *)
Definition py_strip (v : json) : res pystr :=
  match v with
  | JStr s => Ok (strip s)
  | _ => Raise AttributeError
  end.

(** [v == True] *)
Definition py_eq_True (v : json) : bool :=
  match v with
  | JBool b => b
  | JInt n => n =? 1
  | JFloat f => PrimFloat.eqb f 1%float
  | _ => false
  end.

(** ** The outside world: HTTP exchanges and the random source *)

Inductive method : Type := GET | POST.

Record request : Type := Request {
  req_method : method;
  req_url : pystr;
  req_json : option json
}.

(** The response object that the HTTP library hands to the method, by what
    the method reads of it: its [status_code], and what [response.json()]
    gives for it in that library ([None] when it raises).  The two libraries
    decode by their own rules (aiohttp refuses a Content-Type other than
    JSON and gives [None], here [JNull], for an empty body; requests does
    neither), so one answer of a server can be two different response
    objects. *)
Record response : Type := Response {
  status_code : Z;
  json_body : option json
}.

(** What a call of the library's [get] or [post] comes to: the connection
    fails, the call raises another exception of the library (of the class
    named), or it gives a response object. *)
Inductive http_outcome : Type :=
| Unreachable
| Raised (cls : pystr)
| Responded (r : response).

(** What the library in use makes of each request during one method call.
    A network is the library together with the server: the blocking and the
    non-blocking call go through different libraries and therefore through
    different networks. *)
Definition network : Type := request -> http_outcome.

Definition ascii_uppercase : pystr := str "ABCDEFGHIJKLMNOPQRSTUVWXYZ".
Definition digits : pystr := str "0123456789".

(** [random.choices(population, k=k)]: [draw j] is the index that the random
    source picks for the [j]-th character, [floor(random() * len(population))],
    which is below [len(population)]. *)
Definition random_choices (population : pystr) (k : nat) (draw : nat -> nat) : pystr :=
  (fun j => nth (draw j) population 0%N) <$> seq 0 k.

(** ** The client object *)

(** The fields that are set at construction and only read afterwards. *)
Record KoboldApiLLM : Type := {
  endpoint : pystr;
  use_story : option bool;
  use_authors_note : option bool;
  use_world_info : option bool;
  use_memory : option bool;
  max_context_length : option Z;
  max_length : option Z;
  rep_pen : option float;
  rep_pen_range : option Z;
  rep_pen_slope : option float;
  temperature : option float;
  tfs : option float;
  top_a : option float;
  top_p : option float;
  top_k : option Z;
  typical : option float
}.

(** The instance with the defaults of the class. *)
Definition default_llm (endpoint : pystr) : KoboldApiLLM := {|
  endpoint := endpoint;
  use_story := Some false;
  use_authors_note := Some false;
  use_world_info := Some false;
  use_memory := Some false;
  max_context_length := Some 1600;
  max_length := Some 80;
  rep_pen := Some 1.12%float;
  rep_pen_range := Some 1024;
  rep_pen_slope := Some 0.9%float;
  temperature := Some 0.6%float;
  tfs := Some 0.9%float;
  top_a := Some 0.9%float;
  top_p := Some 0.95%float;
  top_k := Some 0;
  typical := Some 0.5%float
|}.

(** The attributes that the methods assign: the registry of generation keys
    per channel ([genkeys], a dict shared by all calls) and the dialect flag
    ([is_koboldcpp]). *)
Record store : Type := Store {
  genkeys : gmap (option pystr) pystr;
  is_koboldcpp : bool
}.

Definition initial_store : store := Store ∅ false.

(** ** Observable effects *)

Inductive message : Type :=
| MsgGenkey (genkey : pystr)
| MsgKoboldcpp
| MsgKoboldAI
| MsgAbortOk (channel_id : option pystr) (genkey : pystr)
| MsgAbortError
| MsgAbortException (e : exn).

Inductive event : Type :=
| EvPrint (m : message)
| EvSetGenkey (channel_id : option pystr) (genkey : pystr)
| EvSetKoboldcpp (b : bool)
| EvRequest (r : request).

(** ** The monad of the methods: state, exceptions and a trace *)

Definition M (A : Type) : Type := store -> res A * store * list event.

#[global] Instance M_ret : MRet M := fun A a s => (Ok a, s, []).

#[global] Instance M_bind : MBind M := fun A B f m s =>
  match m s with
  | (Ok a, s', t) => let '(r, s'', t') := f a s' in (r, s'', t ++ t')
  | (Raise e, s', t) => (Raise e, s', t)
  end.

Definition raise {A} (e : exn) : M A := fun s => (Raise e, s, []).

Definition lift {A} (r : res A) : M A := fun s => (r, s, []).

Definition gets {A} (f : store -> A) : M A := fun s => (Ok (f s), s, []).

Definition print (m : message) : M unit := fun s => (Ok tt, s, [EvPrint m]).

(** [self.genkeys[channel_id] = genkey] *)
Definition set_genkey (channel_id : option pystr) (genkey : pystr) : M unit :=
  fun s => (Ok tt, Store (<[channel_id := genkey]> (genkeys s)) (is_koboldcpp s),
            [EvSetGenkey channel_id genkey]).

(** [self.is_koboldcpp = b] *)
Definition set_is_koboldcpp (b : bool) : M unit :=
  fun s => (Ok tt, Store (genkeys s) b, [EvSetKoboldcpp b]).

(** [try: body except: handler] and [except Exception as e]: every
    exception of [exn] is caught. *)
Definition try_except {A} (body : M A) (handler : exn -> M A) : M A := fun s =>
  match body s with
  | (Ok a, s', t) => (Ok a, s', t)
  | (Raise e, s', t) => let '(r, s'', t') := handler e s' in (r, s'', t ++ t')
  end.

(** Reading a local variable that is bound on some paths only. *)
Definition local {A} (name : pystr) (v : option A) : M A :=
  match v with
  | Some a => mret a
  | None => raise (UnboundLocalError name)
  end.

(** One call of [requests.get], [requests.post] or aiohttp's
    [session.post]; the event records the call. *)
Definition http (net : network) (r : request) : M response := fun s =>
  match net r with
  | Responded resp => (Ok resp, s, [EvRequest r])
  | Unreachable => (Raise ConnectionError, s, [EvRequest r])
  | Raised cls => (Raise (LibraryError cls), s, [EvRequest r])
  end.

(** [response.raise_for_status()] of requests: statuses 400 to 599. *)
Definition requests_raise_for_status (r : response) : M unit :=
  if (400 <=? status_code r) && (status_code r <? 600)
  then raise (HTTPError (status_code r)) else mret tt.

(** [response.raise_for_status()] of aiohttp: statuses from 400 on. *)
Definition aiohttp_raise_for_status (r : response) : M unit :=
  if 400 <=? status_code r
  then raise (HTTPError (status_code r)) else mret tt.

(** [response.json()], by what the library in use gave for this response
    object. *)
Definition response_json (r : response) : M json :=
  match json_body r with
  | Some j => mret j
  | None => raise JSONDecodeError
  end.

(** [a and b] on conditions that may raise: [b] is evaluated only when [a]
    holds. *)
Definition and_then (a b : M bool) : M bool :=
  x ← a; if x : bool then b else mret false.

(** ** The methods of [KoboldApiLLM] *)

Definition of_bool (o : option bool) : json := from_option JBool JNull o.
Definition of_int (o : option Z) : json := from_option JInt JNull o.
Definition of_float (o : option float) : json := from_option JFloat JNull o.

(** [if stop:] holds for a list that is given and not empty. *)
Definition truthy (stop : option (list pystr)) : bool :=
  match stop with
  | Some (_ :: _) => true
  | _ => false
  end.

Definition _get_parameters (self : KoboldApiLLM) (prompt : pystr)
    (stop : option (list pystr)) : dict :=
  let data : dict := [
    (str "prompt", JStr prompt);
    (str "use_story", of_bool (use_story self));
    (str "use_authors_note", of_bool (use_authors_note self));
    (str "use_world_info", of_bool (use_world_info self));
    (str "use_memory", of_bool (use_memory self));
    (str "max_context_length", of_int (max_context_length self));
    (str "max_length", of_int (max_length self));
    (str "rep_pen", of_float (rep_pen self));
    (str "rep_pen_range", of_int (rep_pen_range self));
    (str "rep_pen_slope", of_float (rep_pen_slope self));
    (str "temperature", of_float (temperature self));
    (str "tfs", of_float (tfs self));
    (str "top_a", of_float (top_a self));
    (str "top_p", of_float (top_p self));
    (str "top_k", of_int (top_k self));
    (str "typical", of_float (typical self))
  ] in
  if truthy stop
  then dict_set data (str "stop_sequence") (JArr (JStr <$> default [] stop))
  else data.

Definition generate_url (self : KoboldApiLLM) : pystr :=
  clean_url (endpoint self) ++ str "/api/v1/generate".

(** The blocking call. *)
Definition _call (self : KoboldApiLLM) (net : network) (prompt : pystr)
    (stop : option (list pystr)) : M pystr :=
  let data := _get_parameters self prompt stop in
  response ← http net (Request POST (generate_url self) (Some (JObj data)));
  requests_raise_for_status response;;
  json_response ← response_json response;
  expected ←
    and_then (lift (py_in (str "results") json_response))
   (and_then (results ← lift (py_getitem_str json_response (str "results"));
              n ← lift (py_len results);
              mret (0 <? n))
             (results ← lift (py_getitem_str json_response (str "results"));
              first ← lift (py_getitem_int results 0);
              lift (py_in (str "text") first)));
  if expected : bool then
    results ← lift (py_getitem_str json_response (str "results"));
    first ← lift (py_getitem_int results 0);
    raw ← lift (py_getitem_str first (str "text"));
    text ← lift (py_strip raw);
    mret (match stop with
          | Some sequences =>
              fold_left (fun text sequence =>
                           if endswith text sequence
                           then rstrip (slice_to_neg text (length sequence))
                           else text) sequences text
          | None => text
          end)
  else raise (ValueError (UnexpectedResponseFormat json_response)).

(** The non-blocking call.  [draw] is what the random source yields during
    this call. *)
Definition _acall (self : KoboldApiLLM) (net : network) (draw : nat -> nat)
    (prompt : pystr) (stop : option (list pystr))
    (channel_id : option pystr) : M pystr :=
  koboldcpp ← gets is_koboldcpp;
  data ←
    (if koboldcpp : bool then
       let genkey := random_choices (ascii_uppercase ++ digits) 10 draw in
       print (MsgGenkey genkey);;
       set_genkey channel_id genkey;;
       let data := _get_parameters self prompt stop in
       mret (dict_set data (str "genkey") (JStr genkey))
     else mret (_get_parameters self prompt stop));
  response ← http net (Request POST (generate_url self) (Some (JObj data)));
  aiohttp_raise_for_status response;;
  json_response ← response_json response;
  expected ←
    and_then (lift (py_in (str "results") json_response))
   (and_then (results ← lift (py_getitem_str json_response (str "results"));
              n ← lift (py_len results);
              mret (0 <? n))
             (results ← lift (py_getitem_str json_response (str "results"));
              first ← lift (py_getitem_int results 0);
              lift (py_in (str "text") first)));
  if expected : bool then
    results ← lift (py_getitem_str json_response (str "results"));
    first ← lift (py_getitem_int results 0);
    raw ← lift (py_getitem_str first (str "text"));
    text ← lift (py_strip raw);
    mret (match stop with
          | Some sequences =>
              fold_left (fun text sequence =>
                           if endswith text sequence
                           then rstrip (slice_to_neg text (length sequence))
                           else text) sequences text
          | None => text
          end)
  else raise (ValueError (UnexpectedResponseFormat json_response)).

Section CheckVersion.

(** The builtin [float(v)] on a decoded JSON value. *)
Variable builtin_float : json -> res float.

Definition check_version (self : KoboldApiLLM) (net : network) : M float :=
  try_except
    (response ← http net
        (Request GET (clean_url (endpoint self) ++ str "/api/extra/version") None);
     requests_raise_for_status response;;
     json_response ← response_json response;
     set_is_koboldcpp true;;
     print MsgKoboldcpp;;
     version ← lift (py_getitem_str json_response (str "version"));
     lift (builtin_float version))
    (fun _ =>
       try_except
         (response ← http net
             (Request GET (clean_url (endpoint self) ++ str "/api/v1/version") None);
          requests_raise_for_status response;;
          json_response ← response_json response;
          set_is_koboldcpp false;;
          print MsgKoboldAI;;
          mret 0%float)
         (fun _ => raise (ValueError EndpointNotRunning))).

End CheckVersion.

Definition abort_url (self : KoboldApiLLM) : pystr :=
  clean_url (endpoint self) ++ str "/api/extra/abort".

(** Cancellation.  The locals [genkey] and [json] are bound only when the
    channel has an entry in the registry. *)
Definition _stop (self : KoboldApiLLM) (net : network)
    (channel_id : option pystr) : M unit :=
  registry ← gets genkeys;
  let genkey : option pystr := registry !! channel_id in
  let json : option json := (fun k => JObj [(str "genkey", JStr k)]) <$> genkey in
  try_except
    (body ← local (str "json") json;
     response ← http net (Request POST (abort_url self) (Some body));
     success ←
       (if status_code response =? 200 then
          reply ← response_json response;
          flag ← lift (py_getitem_str reply (str "success"));
          mret (py_eq_True flag)
        else mret false);
     if success : bool then
       key ← local (str "genkey") genkey;
       print (MsgAbortOk channel_id key)
     else print MsgAbortError)
    (fun e => print (MsgAbortException e)).

(** ** Names for the parts that the claims speak about *)

(** One round of the loop over the stop sequences. *)
Definition strip_sequence (text sequence : pystr) : pystr :=
  if endswith text sequence
  then rstrip (slice_to_neg text (length sequence))
  else text.

(** The whole loop, for an optional list of stop sequences. *)
Definition strip_stop (stop : option (list pystr)) (text : pystr) : pystr :=
  match stop with
  | Some sequences => fold_left strip_sequence sequences text
  | None => text
  end.

(** The string at [results[0].text] of a payload that has this shape: an
    object whose [results] is an array that starts with an object whose
    [text] is a string. *)
Definition generated_text (j : json) : option pystr :=
  match j with
  | JObj d =>
      match dict_get d (str "results") with
      | Some (JArr (JObj first :: _)) =>
          match dict_get first (str "text") with
          | Some (JStr raw) => Some raw
          | _ => None
          end
      | _ => None
      end
  | _ => None
  end.

(** The payload [{"results": [{"text": raw}]}]. *)
Definition payload (raw : pystr) : json :=
  JObj [(str "results", JArr [JObj [(str "text", JStr raw)]])].

(** The request that [_call] sends. *)
Definition generate_request (self : KoboldApiLLM) (prompt : pystr)
    (stop : option (list pystr)) : request :=
  Request POST (generate_url self) (Some (JObj (_get_parameters self prompt stop))).

(** The keys of the request body that every generation request carries. *)
Definition body_fields : list pystr := [
  str "prompt"; str "use_story"; str "use_authors_note"; str "use_world_info";
  str "use_memory"; str "max_context_length"; str "max_length"; str "rep_pen";
  str "rep_pen_range"; str "rep_pen_slope"; str "temperature"; str "tfs";
  str "top_a"; str "top_p"; str "top_k"; str "typical"
].

(** The key that [_acall] draws, and the request that it sends when the
    dialect flag is set. *)
Definition fresh_genkey (draw : nat -> nat) : pystr :=
  random_choices (ascii_uppercase ++ digits) 10 draw.

Definition keyed_request (self : KoboldApiLLM) (draw : nat -> nat)
    (prompt : pystr) (stop : option (list pystr)) : request :=
  Request POST (generate_url self)
    (Some (JObj (dict_set (_get_parameters self prompt stop)
                   (str "genkey") (JStr (fresh_genkey draw))))).

(** The request of the non-blocking call, by dialect. *)
Definition sent (self : KoboldApiLLM) (draw : nat -> nat) (prompt : pystr)
    (stop : option (list pystr)) (s : store) : request :=
  if is_koboldcpp s then keyed_request self draw prompt stop
  else generate_request self prompt stop.

(** A network in which every call of the library gives the response object
    [r]. *)
Definition answers (r : response) : network := fun _ => Responded r.

(** The statuses that [raise_for_status] of requests lets through. *)
Definition passes (status : Z) : bool :=
  negb ((400 <=? status) && (status <? 600)).

(** The requests among the effects of a run. *)
Definition requests_of (t : list event) : list request :=
  omap (fun e => match e with EvRequest r => Some r | _ => None end) t.

(** What a method returned or raised, the store it left and its trace. *)
Definition result {A} (x : res A * store * list event) : res A := x.1.1.
Definition final {A} (x : res A * store * list event) : store := x.1.2.
Definition trace {A} (x : res A * store * list event) : list event := x.2.

(** The property [_llm_type]. *)
Definition _llm_type (self : KoboldApiLLM) : pystr := str "koboldai".

(** The request that [_stop] sends for a registered key. *)
Definition abort_request (self : KoboldApiLLM) (genkey : pystr) : request :=
  Request POST (abort_url self) (Some (JObj [(str "genkey", JStr genkey)])).

(** The two requests of the dialect probe. *)
Definition extended_version_request (self : KoboldApiLLM) : request :=
  Request GET (clean_url (endpoint self) ++ str "/api/extra/version") None.

Definition basic_version_request (self : KoboldApiLLM) : request :=
  Request GET (clean_url (endpoint self) ++ str "/api/v1/version") None.

(** ** Facts about strings *)

Section StringFacts.
Implicit Types s suf t : pystr.

Lemma endswith_true s suf : endswith s suf = true <-> suf `suffix_of` s.
Proof. unfold endswith. apply bool_decide_eq_true. Qed.

Lemma endswith_false s suf : endswith s suf = false <-> ~ suf `suffix_of` s.
Proof. unfold endswith. apply bool_decide_eq_false. Qed.

Lemma endswith_nil s : endswith s [] = true.
Proof. apply endswith_true, suffix_nil. Qed.

(** Cutting a non-empty suffix off gives back the part in front of it. *)
Lemma slice_to_neg_app t suf :
  suf <> [] -> slice_to_neg (t ++ suf) (length suf) = t.
Proof.
  intros Hne. unfold slice_to_neg.
  destruct suf as [|c suf']; [done|].
  rewrite length_app.
  replace (length t + length (c :: suf') - length (c :: suf'))%nat
    with (length t) by lia.
  by rewrite take_app_length.
Qed.

Lemma slice_to_neg_suffix s suf :
  suf <> [] -> suf `suffix_of` s -> s = slice_to_neg s (length suf) ++ suf.
Proof.
  intros Hne [t ->]. by rewrite slice_to_neg_app.
Qed.

Lemma rstrip_idemp s : rstrip (rstrip s) = rstrip s.
Proof.
  induction s as [|c s IH]; [done|]. simpl.
  destruct (rstrip s) as [|d r] eqn:E.
  - destruct (is_space c) eqn:Hc; [done|]. simpl. by rewrite Hc.
  - simpl in IH. simpl.
    destruct (rstrip r) as [|e r'] eqn:E'.
    + destruct (is_space d); [done|]. by inversion IH.
    + by rewrite IH.
Qed.

Lemma strip_rstrip s : rstrip (strip s) = strip s.
Proof. apply rstrip_idemp. Qed.
End StringFacts.

(** ** Endpoint normalization *)

Lemma slice_to_neg_length (s suf : pystr) :
  suf <> [] -> suf `suffix_of` s ->
  (length (slice_to_neg s (length suf)) < length s)%nat.
Proof.
  intros Hne Hs. rewrite (slice_to_neg_suffix s suf Hne Hs) at 2.
  rewrite length_app. destruct suf; [done|]. simpl. lia.
Qed.

Lemma clean_url_cases (url : pystr) :
  url = clean_url url ++ str "/api" \/ url = clean_url url ++ str "/"
  \/ url = clean_url url.
Proof.
  unfold clean_url.
  destruct (endswith url (str "/api")) eqn:Ha.
  - left. apply endswith_true in Ha.
    by apply (slice_to_neg_suffix url (str "/api")).
  - destruct (endswith url (str "/")) eqn:Hs.
    + right; left. apply endswith_true in Hs.
      by apply (slice_to_neg_suffix url (str "/")).
    + by right; right.
Qed.

Lemma clean_url_fixed (url : pystr) :
  clean_url url = url <->
  endswith url (str "/api") = false /\ endswith url (str "/") = false.
Proof.
  unfold clean_url. split.
  - intros H.
    destruct (endswith url (str "/api")) eqn:Ha.
    { apply endswith_true in Ha.
      pose proof (slice_to_neg_length url (str "/api") ltac:(done) Ha) as L.
      change (length (str "/api")) with 4%nat in L. rewrite H in L. lia. }
    destruct (endswith url (str "/")) eqn:Hs; [|done].
    apply endswith_true in Hs.
    pose proof (slice_to_neg_length url (str "/") ltac:(done) Hs) as L.
    change (length (str "/")) with 1%nat in L. rewrite H in L. lia.
  - intros [-> ->]. done.
Qed.

(** C7, as the code has it: the three endpoints of the specification are
    normalized to the same base URL; normalization removes one trailing
    "/api", or else one trailing "/", or else nothing; and normalizing twice
    gives the same as normalizing once exactly for the URLs whose normalized
    form ends in neither "/api" nor "/". *)
Theorem clean_url_strips_once :
  clean_url (str "http://h:5000/api") = str "http://h:5000"
  /\ clean_url (str "http://h:5000/") = str "http://h:5000"
  /\ clean_url (str "http://h:5000") = str "http://h:5000"
  /\ (forall url : pystr,
        url = clean_url url ++ str "/api" \/ url = clean_url url ++ str "/"
        \/ url = clean_url url)
  /\ (forall url : pystr,
        clean_url (clean_url url) = clean_url url <->
        endswith (clean_url url) (str "/api") = false
        /\ endswith (clean_url url) (str "/") = false).
Proof.
  split; [by vm_compute|]. split; [by vm_compute|]. split; [by vm_compute|].
  split; [apply clean_url_cases|]. intros url. apply clean_url_fixed.
Qed.

(** C7 as stated fails: normalization is not idempotent, a URL with two
    trailing slashes loses one of them at each application. *)
Lemma clean_url_not_idempotent :
  ~ (forall url : pystr, clean_url (clean_url url) = clean_url url).
Proof.
  intros H. specialize (H (str "http://h:5000//")).
  vm_compute in H. discriminate H.
Qed.

(** ** Running the methods *)

(** Case analysis along the control flow of a method: simplify, then split
    on the innermost scrutinee that blocks the computation. *)
Ltac run_method :=
  repeat first
    [ progress cbn -[str strip rstrip endswith slice_to_neg clean_url
                     _get_parameters dict_set random_choices insert lookup]
    | match goal with
      | |- context [match ?x with _ => _ end] =>
          lazymatch x with
          | context [match _ with _ => _ end] => fail
          | _ => destruct x eqn:?
          end
      end ].

Ltac unfold_monad :=
  unfold and_then, local, requests_raise_for_status, aiohttp_raise_for_status,
    response_json;
  unfold mbind, M_bind, mret, M_ret, http, lift, raise, gets, print,
    set_genkey, set_is_koboldcpp, try_except.

Section Calls.
Context (self : KoboldApiLLM) (net : network) (prompt : pystr)
  (stop : option (list pystr)).

(** The blocking call sends one request and leaves the store alone; what it
    returns or raises does not depend on the store. *)
Lemma _call_frame (s : store) :
  _call self net prompt stop s
  = (result (_call self net prompt stop initial_store), s,
     [EvRequest (generate_request self prompt stop)]).
Proof.
  unfold result, _call. unfold_monad.
  fold (generate_request self prompt stop).
  run_method; congruence.
Qed.

(** A response that passes the status check and carries generated text is
    answered with that text, stripped and cut at the stop sequences. *)
Lemma _call_generated (r : response) (j : json) (raw : pystr) (s : store) :
  net (generate_request self prompt stop) = Responded r ->
  passes (status_code r) = true ->
  json_body r = Some j ->
  generated_text j = Some raw ->
  result (_call self net prompt stop s) = Ok (strip_stop stop (strip raw)).
Proof.
  intros Hnet Hst Hj Hraw.
  unfold result, _call. unfold_monad.
  fold (generate_request self prompt stop).
  rewrite Hnet. unfold passes in Hst. apply negb_true_iff in Hst.
  rewrite Hst, Hj.
  destruct j as [| | | | |l|d]; try discriminate Hraw. simpl in Hraw.
  destruct (dict_get d (str "results")) as [[| | | | |l|]|] eqn:Hres;
    try discriminate Hraw.
  destruct l as [|[| | | | | |first] rest]; try discriminate Hraw.
  destruct (dict_get first (str "text")) as [[| | | |raw'| |]|] eqn:Htext;
    try discriminate Hraw.
  injection Hraw as ->.
  cbn -[str strip]. rewrite Hres. cbn -[str strip]. rewrite Htext.
  cbn -[str strip]. by destruct stop.
Qed.

Context (draw : nat -> nat) (channel_id : option pystr).

(** With the flag unset the non-blocking call touches nothing either. *)
Lemma _acall_basic (s : store) :
  is_koboldcpp s = false ->
  _acall self net draw prompt stop channel_id s
  = (result (_acall self net draw prompt stop channel_id s), s,
     [EvRequest (generate_request self prompt stop)]).
Proof.
  intros Hk. unfold result, _acall. unfold_monad. rewrite Hk.
  fold (generate_request self prompt stop).
  run_method; congruence.
Qed.

(** With the flag set it prints the key, stores it and then sends the
    request, whatever happens afterwards. *)
Lemma _acall_extended (s : store) :
  is_koboldcpp s = true ->
  _acall self net draw prompt stop channel_id s
  = (result (_acall self net draw prompt stop channel_id s),
     Store (<[channel_id := fresh_genkey draw]> (genkeys s)) true,
     [EvPrint (MsgGenkey (fresh_genkey draw));
      EvSetGenkey channel_id (fresh_genkey draw);
      EvRequest (keyed_request self draw prompt stop)]).
Proof.
  intros Hk. unfold result, _acall. unfold_monad. rewrite Hk.
  fold (fresh_genkey draw). fold (keyed_request self draw prompt stop).
  run_method; congruence.
Qed.

Lemma _acall_generated (r : response) (j : json) (raw : pystr) (s : store) :
  net (sent self draw prompt stop s) = Responded r ->
  status_code r < 400 ->
  json_body r = Some j ->
  generated_text j = Some raw ->
  result (_acall self net draw prompt stop channel_id s)
  = Ok (strip_stop stop (strip raw)).
Proof.
  intros Hnet Hst Hj Hraw.
  assert ((400 <=? status_code r) = false) as Hst' by (apply Z.leb_gt; lia).
  destruct j as [| | | | |l|d]; try discriminate Hraw. simpl in Hraw.
  destruct (dict_get d (str "results")) as [[| | | | |l|]|] eqn:Hres;
    try discriminate Hraw.
  destruct l as [|[| | | | | |first] rest]; try discriminate Hraw.
  destruct (dict_get first (str "text")) as [[| | | |raw'| |]|] eqn:Htext;
    try discriminate Hraw.
  injection Hraw as ->.
  unfold sent, keyed_request, generate_request, fresh_genkey in Hnet.
  unfold result, _acall. unfold_monad.
  destruct (is_koboldcpp s);
    cbn -[str strip random_choices _get_parameters dict_set generate_url];
    rewrite Hnet, Hst', Hj; cbn -[str strip]; rewrite Hres; cbn -[str strip];
    rewrite Htext; cbn -[str strip]; by destruct stop.
Qed.

(** The two modes agree on what they return or raise whenever each of them
    is handed a response object that passes its status check, and the two
    response objects decode to the same payload. *)
Lemma _acall_result (net' : network) (r r' : response) (j : json) (s : store) :
  net (generate_request self prompt stop) = Responded r ->
  net' (sent self draw prompt stop s) = Responded r' ->
  passes (status_code r) = true ->
  status_code r' < 400 ->
  json_body r = Some j ->
  json_body r' = Some j ->
  result (_acall self net' draw prompt stop channel_id s)
  = result (_call self net prompt stop s).
Proof.
  intros Hnet Hnet' Hst Hst' Hj Hj'.
  assert ((400 <=? status_code r') = false) as Hlo by (apply Z.leb_gt; lia).
  unfold passes in Hst. apply negb_true_iff in Hst.
  unfold sent, keyed_request, generate_request, fresh_genkey in *.
  unfold result, _acall, _call. unfold_monad.
  destruct (is_koboldcpp s);
    cbn -[str strip random_choices _get_parameters dict_set generate_url
          rstrip endswith slice_to_neg];
    rewrite Hnet, Hnet', Hst, Hlo, Hj, Hj';
    run_method; congruence.
Qed.
End Calls.

(** ** The loop over the stop sequences *)

Section StopSequences.
Implicit Types text t q : pystr.
Implicit Types pre post sequences : list pystr.

Lemma strip_sequence_miss text q :
  endswith text q = false -> strip_sequence text q = text.
Proof. unfold strip_sequence. by intros ->. Qed.

Lemma strip_sequence_hit t q :
  q <> [] -> strip_sequence (t ++ q) q = rstrip t.
Proof.
  intros Hq. unfold strip_sequence.
  assert (endswith (t ++ q) q = true) as ->
    by (apply endswith_true; by exists t).
  by rewrite slice_to_neg_app.
Qed.

(** Every text ends with the empty sequence, and [text[:-0]] is empty: an
    empty stop sequence empties the text. *)
Lemma strip_sequence_empty text : strip_sequence text [] = [].
Proof. unfold strip_sequence. by rewrite endswith_nil. Qed.

(** Sequences that do not match leave the text as it is. *)
Lemma strip_stop_none text sequences :
  Forall (fun x => endswith text x = false) sequences ->
  fold_left strip_sequence sequences text = text.
Proof.
  induction 1 as [|x l Hx _ IH]; [done|].
  simpl. by rewrite strip_sequence_miss.
Qed.

(** The first sequence that matches is cut off, and the loop goes on with
    the sequences after it. *)
Lemma strip_stop_first pre q post t :
  q <> [] ->
  Forall (fun x => endswith (t ++ q) x = false) pre ->
  fold_left strip_sequence (pre ++ q :: post) (t ++ q)
  = fold_left strip_sequence post (rstrip t).
Proof.
  intros Hq Hpre. rewrite fold_left_app, (strip_stop_none _ _ Hpre).
  simpl. by rewrite strip_sequence_hit.
Qed.
End StopSequences.

Lemma passes_below_400 (status : Z) : status < 400 -> passes status = true.
Proof.
  intros H. unfold passes.
  assert ((400 <=? status) = false) as -> by (apply Z.leb_gt; lia). done.
Qed.

(** C1, as the code has it: the sequences are tried in order; the first one
    that the stripped text ends with is cut off and the rest is trimmed on
    the right; the loop then goes on and treats the sequences after it in the
    same way, so that further sequences can be removed.  Both call modes do
    this.  (The sequence is taken to be non-empty.) *)
Theorem stop_loop_continues_after_first_match
    (self : KoboldApiLLM) (draw : nat -> nat) (prompt : pystr)
    (channel_id : option pystr) (s : store) (r : response) (j : json)
    (raw t q : pystr) (pre post : list pystr) :
  status_code r < 400 ->
  json_body r = Some j ->
  generated_text j = Some raw ->
  strip raw = t ++ q ->
  q <> [] ->
  Forall (fun x => endswith (strip raw) x = false) pre ->
  result (_call self (answers r) prompt (Some (pre ++ q :: post)) s)
  = Ok (strip_stop (Some post) (rstrip t))
  /\ result (_acall self (answers r) draw prompt (Some (pre ++ q :: post))
               channel_id s)
     = Ok (strip_stop (Some post) (rstrip t)).
Proof.
  intros Hst Hj Hraw Ht Hq Hpre.
  rewrite (_call_generated self (answers r) prompt _ r j raw s eq_refl
             (passes_below_400 _ Hst) Hj Hraw).
  rewrite (_acall_generated self (answers r) prompt _ draw channel_id r j raw s
             eq_refl Hst Hj Hraw).
  simpl. rewrite Ht in *. by rewrite strip_stop_first.
Qed.

Lemma stop_loop_continues_witness :
  result (_call (default_llm (str "http://h:5000"))
            (answers (Response 200 (Some (payload (str " Hello world. END ")))))
            (str "Hi") (Some ([str "bye"] ++ str "END" :: [str "world."]))
            initial_store)
  = Ok (str "Hello").
Proof.
  refine (proj1 (stop_loop_continues_after_first_match
            (default_llm (str "http://h:5000")) (fun _ => O) (str "Hi") None
            initial_store
            (Response 200 (Some (payload (str " Hello world. END "))))
            (payload (str " Hello world. END ")) (str " Hello world. END ")
            (str "Hello world. ") (str "END") [str "bye"] [str "world."]
            _ _ _ _ _ _)).
  - simpl. lia.
  - reflexivity.
  - reflexivity.
  - vm_compute. reflexivity.
  - discriminate.
  - repeat constructor.
Defined.

(** C1 as stated fails: removing only the first matching sequence is not
    what the call returns when a later sequence matches the shortened
    text. *)
Lemma more_than_one_sequence_stripped :
  ~ (forall (self : KoboldApiLLM) (prompt : pystr) (s : store)
            (raw t q : pystr) (pre post : list pystr),
        strip raw = t ++ q ->
        q <> [] ->
        Forall (fun x => endswith (strip raw) x = false) pre ->
        result (_call self (answers (Response 200 (Some (payload raw)))) prompt
                  (Some (pre ++ q :: post)) s)
        = Ok (rstrip t)).
Proof.
  intros H.
  specialize (H (default_llm (str "http://h:5000")) (str "Hi") initial_store
                (str "Hello world. END") (str "Hello world. ") (str "END")
                [] [str "world."] eq_refl ltac:(discriminate) ltac:(constructor)).
  vm_compute in H. discriminate H.
Qed.

(** C3, as the code has it: when the stripped text ends with exactly one of
    the sequences (a non-empty one) and what is left after cutting it off and
    trimming ends with none of the sequences that come later in the list, the
    call returns what is left; when the stripped text ends with none of the
    sequences, the call returns it unchanged; and for the payload
    [{"results":[{"text":"Hello world.   "}]}] with the stop sequence
    "world." the call returns "Hello". *)
Theorem stop_sequence_result :
  (forall (self : KoboldApiLLM) (prompt : pystr) (s : store) (r : response)
          (j : json) (raw : pystr) (stop : list pystr),
      passes (status_code r) = true ->
      json_body r = Some j ->
      generated_text j = Some raw ->
      (forall (t q : pystr) (pre post : list pystr),
          stop = pre ++ q :: post ->
          strip raw = t ++ q ->
          q <> [] ->
          Forall (fun x => endswith (strip raw) x = false) (pre ++ post) ->
          Forall (fun x => endswith (rstrip t) x = false) post ->
          result (_call self (answers r) prompt (Some stop) s) = Ok (rstrip t))
      /\ (Forall (fun x => endswith (strip raw) x = false) stop ->
          result (_call self (answers r) prompt (Some stop) s)
          = Ok (strip raw)))
  /\ (forall (self : KoboldApiLLM) (prompt : pystr) (s : store),
        result (_call self
                  (answers (Response 200
                              (Some (payload (str "Hello world.   ")))))
                  prompt (Some [str "world."]) s)
        = Ok (str "Hello")).
Proof.
  split.
  - intros self prompt s r j raw stop Hst Hj Hraw.
    rewrite (_call_generated self (answers r) prompt _ r j raw s eq_refl
               Hst Hj Hraw). simpl.
    split.
    + intros t q pre post -> Ht Hq Hno Hpost. rewrite Ht in *.
      apply Forall_app in Hno as [Hpre _].
      rewrite strip_stop_first by done. by rewrite strip_stop_none.
    + intros Hno. by rewrite strip_stop_none.
  - intros self prompt s.
    by rewrite (_call_generated self _ prompt _
                  (Response 200 (Some (payload (str "Hello world.   "))))
                  (payload (str "Hello world.   ")) (str "Hello world.   ") s
                  eq_refl eq_refl eq_refl eq_refl).
Qed.

Lemma stop_sequence_result_witness :
  result (_call (default_llm (str "http://h:5000"))
            (answers (Response 200 (Some (payload (str "Hello world. END")))))
            (str "Hi") (Some [str "bye"; str "END"; str "Hello"]) initial_store)
  = Ok (str "Hello world.").
Proof.
  refine (proj1 (proj1 stop_sequence_result
            (default_llm (str "http://h:5000")) (str "Hi") initial_store
            (Response 200 (Some (payload (str "Hello world. END"))))
            (payload (str "Hello world. END")) (str "Hello world. END")
            [str "bye"; str "END"; str "Hello"] _ _ _)
            (str "Hello world. ") (str "END") [str "bye"] [str "Hello"]
            _ _ _ _ _).
  - reflexivity.
  - reflexivity.
  - reflexivity.
  - reflexivity.
  - vm_compute. reflexivity.
  - discriminate.
  - repeat constructor.
  - repeat constructor.
Defined.

(** C3 as stated fails: the text ends with exactly one of the sequences,
    but what is left after cutting it off ends with the next one, which is
    removed as well. *)
Lemma exactly_one_match_not_enough :
  ~ (forall (self : KoboldApiLLM) (prompt : pystr) (s : store)
            (raw t q : pystr) (pre post : list pystr),
        strip raw = t ++ q ->
        Forall (fun x => endswith (strip raw) x = false) (pre ++ post) ->
        result (_call self (answers (Response 200 (Some (payload raw)))) prompt
                  (Some (pre ++ q :: post)) s)
        = Ok (rstrip t)).
Proof.
  intros H.
  specialize (H (default_llm (str "http://h:5000")) (str "Hi") initial_store
                (str "Hello world. user:") (str "Hello world. ") (str "user:")
                [] [str "world."] eq_refl ltac:(repeat constructor)).
  vm_compute in H. discriminate H.
Qed.

(** ** The request body *)

Lemma dict_get_set_ne (d : dict) (k k' : pystr) (v : json) :
  k <> k' -> dict_get (dict_set d k' v) k = dict_get d k.
Proof.
  intros Hne. induction d as [|[k0 v0] d IH]; simpl.
  - by rewrite bool_decide_eq_false_2.
  - destruct (bool_decide (k0 = k')) eqn:E; simpl.
    + apply bool_decide_eq_true in E as ->.
      by rewrite !bool_decide_eq_false_2.
    + destruct (bool_decide (k0 = k)); [done|apply IH].
Qed.

Lemma dict_get_set_eq (d : dict) (k : pystr) (v : json) :
  dict_get (dict_set d k v) k = Some v.
Proof.
  induction d as [|[k0 v0] d IH]; simpl.
  - by rewrite bool_decide_eq_true_2.
  - destruct (bool_decide (k0 = k)) eqn:E; simpl.
    + by rewrite bool_decide_eq_true_2.
    + by rewrite E.
Qed.

Lemma _get_parameters_fields (self : KoboldApiLLM) (prompt : pystr)
    (stop : option (list pystr)) :
  dict_get (_get_parameters self prompt stop) (str "prompt") = Some (JStr prompt)
  /\ Forall (fun k => is_Some (dict_get (_get_parameters self prompt stop) k))
       body_fields
  /\ dict_get (_get_parameters self prompt stop) (str "stop_sequence")
     = match stop with
       | Some (q :: l) => Some (JArr (JStr <$> q :: l))
       | _ => None
       end.
Proof.
  destruct stop as [[|q l]|]; (split; [reflexivity|]);
    (split; [repeat constructor; by eexists | reflexivity]).
Qed.

(** C4: the body that is built for a prompt has the prompt, unchanged, under
    [prompt]; it has all sixteen fields; it has [stop_sequence] exactly when
    a non-empty list of stop sequences is given, and then the list itself.
    This is so for the body as [_get_parameters] builds it and for the body
    with the generation key added; these are the bodies that the two call
    modes send. *)
Theorem request_body_fields (self : KoboldApiLLM) (prompt : pystr)
    (stop : option (list pystr)) :
  (forall d : dict,
      d = _get_parameters self prompt stop
      \/ (exists key, d = dict_set (_get_parameters self prompt stop)
                            (str "genkey") (JStr key)) ->
      dict_get d (str "prompt") = Some (JStr prompt)
      /\ Forall (fun k => is_Some (dict_get d k)) body_fields
      /\ (is_Some (dict_get d (str "stop_sequence"))
          <-> exists q l, stop = Some (q :: l))
      /\ (forall q l, stop = Some (q :: l) ->
          dict_get d (str "stop_sequence") = Some (JArr (JStr <$> q :: l))))
  /\ (forall (net : network) (s : store),
        trace (_call self net prompt stop s)
        = [EvRequest (Request POST (generate_url self)
                        (Some (JObj (_get_parameters self prompt stop))))])
  /\ (forall (net : network) (draw : nat -> nat) (channel_id : option pystr)
             (s : store),
        last (trace (_acall self net draw prompt stop channel_id s))
        = Some (EvRequest (Request POST (generate_url self)
                  (Some (JObj (if is_koboldcpp s
                               then dict_set (_get_parameters self prompt stop)
                                      (str "genkey") (JStr (fresh_genkey draw))
                               else _get_parameters self prompt stop)))))).
Proof.
  destruct (_get_parameters_fields self prompt stop) as (Hp & Hall & Hstop).
  split; [|split].
  - assert (forall d, (forall k, k <> str "genkey" ->
                         dict_get d k = dict_get (_get_parameters self prompt stop) k) ->
              dict_get d (str "prompt") = Some (JStr prompt)
              /\ Forall (fun k => is_Some (dict_get d k)) body_fields
              /\ (is_Some (dict_get d (str "stop_sequence"))
                  <-> exists q l, stop = Some (q :: l))
              /\ (forall q l, stop = Some (q :: l) ->
                  dict_get d (str "stop_sequence")
                  = Some (JArr (JStr <$> q :: l)))) as Hgen.
    { intros d Hd. split; [|split; [|split]].
      - by rewrite Hd.
      - rewrite Forall_forall in Hall |- *. intros k Hk.
        rewrite Hd; [by apply Hall|].
        intros ->. vm_compute in Hk.
        repeat (apply elem_of_cons in Hk as [Hk|Hk]; [discriminate Hk|]).
        by apply elem_of_nil in Hk.
      - rewrite Hd by done. rewrite Hstop. split.
        + destruct stop as [[|q l]|]; intros [x Hx]; try discriminate Hx.
          by exists q, l.
        + intros (q & l & ->). by eexists.
      - intros q l ->. by rewrite Hd. }
    intros d [->|[key ->]]; apply Hgen; [done|].
    intros k Hk. by apply dict_get_set_ne.
  - intros net s. by rewrite _call_frame.
  - intros net draw channel_id s. destruct (is_koboldcpp s) eqn:Hk.
    + by rewrite _acall_extended.
    + by rewrite _acall_basic.
Qed.

(** ** The two call modes *)

(** C9, as the code has it: the blocking call goes through requests and the
    non-blocking call through aiohttp.  Whenever each library hands its call
    a response object that passes the status check of that library, and the
    two objects decode to the same payload, both modes return the same text
    or raise the same exception, and the blocking mode has sent one request
    and left the store alone.  While the dialect flag is unset the
    non-blocking mode then does exactly the same.  While it is set, the
    non-blocking mode also draws a generation key, prints it, stores it in
    the registry, and sends the body of the blocking mode with the key added
    under [genkey].  (Nothing is said of the failures of the exchange itself:
    they come from two libraries, each with its own rules and classes.) *)
Theorem call_modes_agree (self : KoboldApiLLM)
    (requests_net aiohttp_net : network) (draw : nat -> nat) (prompt : pystr)
    (stop : option (list pystr)) (channel_id : option pystr) (s : store)
    (r r' : response) (j : json) :
  requests_net (generate_request self prompt stop) = Responded r ->
  aiohttp_net (sent self draw prompt stop s) = Responded r' ->
  passes (status_code r) = true ->
  status_code r' < 400 ->
  json_body r = Some j ->
  json_body r' = Some j ->
  result (_acall self aiohttp_net draw prompt stop channel_id s)
  = result (_call self requests_net prompt stop s)
  /\ final (_call self requests_net prompt stop s) = s
  /\ trace (_call self requests_net prompt stop s)
     = [EvRequest (generate_request self prompt stop)]
  /\ (is_koboldcpp s = false ->
      _acall self aiohttp_net draw prompt stop channel_id s
      = _call self requests_net prompt stop s)
  /\ (is_koboldcpp s = true ->
      final (_acall self aiohttp_net draw prompt stop channel_id s)
      = Store (<[channel_id := fresh_genkey draw]> (genkeys s)) true
      /\ trace (_acall self aiohttp_net draw prompt stop channel_id s)
         = [EvPrint (MsgGenkey (fresh_genkey draw));
            EvSetGenkey channel_id (fresh_genkey draw);
            EvRequest (Request POST (generate_url self)
              (Some (JObj (dict_set (_get_parameters self prompt stop)
                             (str "genkey") (JStr (fresh_genkey draw))))))]).
Proof.
  intros Hnet Hnet' Hst Hst' Hj Hj'.
  pose proof (_acall_result self requests_net prompt stop draw channel_id
                aiohttp_net r r' j s Hnet Hnet' Hst Hst' Hj Hj') as Hres.
  split; [done|]. split; [by rewrite _call_frame|].
  split; [by rewrite _call_frame|]. split.
  - intros Hk. rewrite (_acall_basic _ _ _ _ _ _ _ Hk), Hres.
    rewrite (_call_frame self requests_net prompt stop s) at 2.
    by rewrite (_call_frame self requests_net prompt stop s) at 1.
  - intros Hk. by rewrite (_acall_extended _ _ _ _ _ _ _ Hk).
Qed.

Lemma call_modes_agree_witness :
  result (_acall (default_llm (str "http://h:5000"))
            (answers (Response 200 (Some (payload (str "Hello ")))))
            (fun _ => O) (str "Hi") None (Some (str "general"))
            (Store ∅ true))
  = result (_call (default_llm (str "http://h:5000"))
              (answers (Response 200 (Some (payload (str "Hello ")))))
              (str "Hi") None (Store ∅ true)).
Proof.
  refine (proj1 (call_modes_agree (default_llm (str "http://h:5000"))
            (answers (Response 200 (Some (payload (str "Hello ")))))
            (answers (Response 200 (Some (payload (str "Hello ")))))
            (fun _ => O) (str "Hi") None (Some (str "general"))
            (Store ∅ true)
            (Response 200 (Some (payload (str "Hello "))))
            (Response 200 (Some (payload (str "Hello "))))
            (payload (str "Hello ")) _ _ _ _ _ _)).
  - reflexivity.
  - reflexivity.
  - reflexivity.
  - simpl. lia.
  - reflexivity.
  - reflexivity.
Defined.

(** C9 as stated fails: with the dialect flag set the two modes do not send
    the same request. *)
Lemma call_modes_send_different_requests :
  ~ (forall (self : KoboldApiLLM) (net : network) (draw : nat -> nat)
            (prompt : pystr) (stop : option (list pystr))
            (channel_id : option pystr) (s : store),
        requests_of (trace (_acall self net draw prompt stop channel_id s))
        = requests_of (trace (_call self net prompt stop s))).
Proof.
  intros H.
  specialize (H (default_llm (str "http://h:5000"))
                (answers (Response 200 (Some (payload (str "Hello")))))
                (fun _ => O) (str "Hi") None (Some (str "general"))
                (Store ∅ true)).
  rewrite _call_frame, _acall_extended in H by done.
  vm_compute in H. discriminate H.
Qed.

(** ** The registry of generation keys *)

(** C10: with the dialect flag set, the non-blocking call stores the fresh
    key for the channel and only then sends the request; the store that it
    leaves has the fresh key for the channel whatever the exchange gives, in
    particular when the call raises because the server is unreachable,
    because of the status, or because of the shape of the payload. *)
Theorem registry_written_before_request (self : KoboldApiLLM) (net : network)
    (draw : nat -> nat) (prompt : pystr) (stop : option (list pystr))
    (channel_id : option pystr) (s : store) :
  is_koboldcpp s = true ->
  trace (_acall self net draw prompt stop channel_id s)
  = [EvPrint (MsgGenkey (fresh_genkey draw));
     EvSetGenkey channel_id (fresh_genkey draw);
     EvRequest (keyed_request self draw prompt stop)]
  /\ genkeys (final (_acall self net draw prompt stop channel_id s))
       !! channel_id = Some (fresh_genkey draw)
  /\ (net (keyed_request self draw prompt stop) = Unreachable ->
      result (_acall self net draw prompt stop channel_id s)
      = Raise ConnectionError)
  /\ (forall r, net (keyed_request self draw prompt stop) = Responded r ->
      400 <= status_code r ->
      result (_acall self net draw prompt stop channel_id s)
      = Raise (HTTPError (status_code r)))
  /\ (forall r d, net (keyed_request self draw prompt stop) = Responded r ->
      status_code r < 400 ->
      json_body r = Some (JObj d) ->
      dict_get d (str "results") = None ->
      result (_acall self net draw prompt stop channel_id s)
      = Raise (ValueError (UnexpectedResponseFormat (JObj d)))).
Proof.
  intros Hk. rewrite (_acall_extended _ _ _ _ _ _ _ Hk).
  split; [done|]. split; [apply lookup_insert_eq|].
  unfold keyed_request, fresh_genkey, result, _acall. unfold_monad. rewrite Hk.
  cbn -[str strip random_choices _get_parameters dict_set generate_url
        rstrip endswith slice_to_neg].
  split; [|split].
  - by intros ->.
  - intros r -> Hst.
    cbn -[str strip random_choices _get_parameters dict_set generate_url
          rstrip endswith slice_to_neg].
    by assert ((400 <=? status_code r) = true) as -> by (apply Z.leb_le; lia).
  - intros r d -> Hst Hj Hres.
    assert ((400 <=? status_code r) = false) as Hlo by (apply Z.leb_gt; lia).
    cbn -[str strip random_choices _get_parameters dict_set generate_url
          rstrip endswith slice_to_neg].
    rewrite Hlo, Hj.
    cbn -[str strip random_choices _get_parameters dict_set generate_url
          rstrip endswith slice_to_neg].
    rewrite Hres.
    by rewrite bool_decide_eq_false_2 by (by intros [? ?]).
Qed.

Lemma registry_written_witness :
  result (_acall (default_llm (str "http://h:5000")) (fun _ => Unreachable)
            (fun _ => O) (str "Hi") None (Some (str "general"))
            (Store (<[Some (str "general") := str "OLDKEY0000"]> ∅) true))
  = Raise ConnectionError
  /\ genkeys (final (_acall (default_llm (str "http://h:5000"))
                       (fun _ => Unreachable) (fun _ => O) (str "Hi") None
                       (Some (str "general"))
                       (Store (<[Some (str "general") := str "OLDKEY0000"]> ∅)
                          true)))
       !! Some (str "general") = Some (str "AAAAAAAAAA").
Proof.
  destruct (registry_written_before_request
              (default_llm (str "http://h:5000")) (fun _ => Unreachable)
              (fun _ => O) (str "Hi") None (Some (str "general"))
              (Store (<[Some (str "general") := str "OLDKEY0000"]> ∅) true)
              eq_refl) as (_ & Hkey & Hdown & _).
  split; [exact (Hdown eq_refl) | exact Hkey].
Defined.

(** *** Freshly drawn keys *)

Lemma alphabet_NoDup : NoDup (ascii_uppercase ++ digits).
Proof.
  apply (bool_decide_unpack (NoDup (ascii_uppercase ++ digits))).
  by vm_compute.
Qed.

Lemma alphabet_nth_inj (i j : nat) :
  (i < 36)%nat -> (j < 36)%nat ->
  nth i (ascii_uppercase ++ digits) 0%N = nth j (ascii_uppercase ++ digits) 0%N ->
  i = j.
Proof.
  intros Hi Hj Heq.
  destruct (nth_lookup_or_length (ascii_uppercase ++ digits) i 0%N) as [Ei|Ei];
    [|simpl in Ei; lia].
  destruct (nth_lookup_or_length (ascii_uppercase ++ digits) j 0%N) as [Ej|Ej];
    [|simpl in Ej; lia].
  rewrite <- Heq in Ej.
  exact (proj1 (NoDup_alt _) alphabet_NoDup i j _ Ei Ej).
Qed.

Lemma fresh_genkey_length (draw : nat -> nat) : length (fresh_genkey draw) = 10%nat.
Proof. reflexivity. Qed.

Lemma fresh_genkey_alphabet (draw : nat -> nat) :
  (forall j, (j < 10)%nat -> (draw j < 36)%nat) ->
  Forall (fun c => c ∈ ascii_uppercase ++ digits) (fresh_genkey draw).
Proof.
  intros Hd. unfold fresh_genkey, random_choices.
  apply Forall_fmap, Forall_forall. intros j Hj.
  apply elem_of_seq in Hj. simpl.
  destruct (nth_lookup_or_length (ascii_uppercase ++ digits) (draw j) 0%N)
    as [E|E].
  - by apply list_elem_of_lookup_2 in E.
  - specialize (Hd j ltac:(lia)). simpl in E. lia.
Qed.

(** Two keys are the same exactly when the same indices were drawn. *)
Lemma fresh_genkey_inj (draw1 draw2 : nat -> nat) :
  (forall j, (j < 10)%nat -> (draw1 j < 36)%nat /\ (draw2 j < 36)%nat) ->
  fresh_genkey draw1 = fresh_genkey draw2
  <-> (forall j, (j < 10)%nat -> draw1 j = draw2 j).
Proof.
  intros Hd. unfold fresh_genkey, random_choices. split.
  - intros H j Hj. destruct (Hd j Hj) as [H1 H2].
    apply Forall_fmap_ext in H. rewrite Forall_forall in H.
    apply alphabet_nth_inj; [done..|]. apply H, elem_of_seq. lia.
  - intros H. apply Forall_fmap_ext, Forall_forall. intros j Hj.
    apply elem_of_seq in Hj. rewrite H; [done|lia].
Qed.

(** C8, as the code has it: two calls, one after the other, for the same
    channel while the dialect flag is set.  Each call stores the key that it
    draws, ten characters out of the upper-case letters and the digits; the
    two keys are the same exactly when the random source picks the same ten
    indices in both calls, so nothing makes them differ.  After the second
    call the registry has the key of the second call for the channel, and
    what it has for any other channel is as before the two calls. *)
Theorem sequential_calls_keep_last_key (self : KoboldApiLLM)
    (net1 net2 : network) (draw1 draw2 : nat -> nat) (prompt1 prompt2 : pystr)
    (stop1 stop2 : option (list pystr)) (channel_id : option pystr)
    (s : store) :
  is_koboldcpp s = true ->
  (forall j, (j < 10)%nat -> (draw1 j < 36)%nat /\ (draw2 j < 36)%nat) ->
  let first := _acall self net1 draw1 prompt1 stop1 channel_id s in
  let second := _acall self net2 draw2 prompt2 stop2 channel_id (final first) in
  trace first
  = [EvPrint (MsgGenkey (fresh_genkey draw1));
     EvSetGenkey channel_id (fresh_genkey draw1);
     EvRequest (keyed_request self draw1 prompt1 stop1)]
  /\ trace second
     = [EvPrint (MsgGenkey (fresh_genkey draw2));
        EvSetGenkey channel_id (fresh_genkey draw2);
        EvRequest (keyed_request self draw2 prompt2 stop2)]
  /\ length (fresh_genkey draw1) = 10%nat
  /\ length (fresh_genkey draw2) = 10%nat
  /\ Forall (fun c => c ∈ ascii_uppercase ++ digits) (fresh_genkey draw1)
  /\ Forall (fun c => c ∈ ascii_uppercase ++ digits) (fresh_genkey draw2)
  /\ (fresh_genkey draw1 = fresh_genkey draw2
      <-> (forall j, (j < 10)%nat -> draw1 j = draw2 j))
  /\ genkeys (final second) !! channel_id = Some (fresh_genkey draw2)
  /\ (forall other, other <> channel_id ->
      genkeys (final second) !! other = genkeys s !! other).
Proof.
  intros Hk Hd first second. subst first second.
  rewrite (_acall_extended self net1 prompt1 stop1 draw1 channel_id s Hk).
  unfold final, trace. simpl.
  rewrite (_acall_extended self net2 prompt2 stop2 draw2 channel_id
             (Store (<[channel_id := fresh_genkey draw1]> (genkeys s)) true)
             eq_refl).
  simpl.
  split; [done|]. split; [done|]. split; [done|]. split; [done|].
  split; [apply fresh_genkey_alphabet; intros j Hj; by destruct (Hd j Hj)|].
  split; [apply fresh_genkey_alphabet; intros j Hj; by destruct (Hd j Hj)|].
  split; [by apply fresh_genkey_inj|].
  split; [apply lookup_insert_eq|].
  intros other Hne. by rewrite !lookup_insert_ne.
Qed.

Lemma sequential_calls_witness :
  genkeys (final (_acall (default_llm (str "http://h:5000"))
                    (fun _ => Unreachable) (fun j => (j + 1)%nat) (str "again")
                    None (Some (str "general"))
                    (final (_acall (default_llm (str "http://h:5000"))
                              (fun _ => Unreachable) (fun j => j) (str "Hi")
                              None (Some (str "general")) (Store ∅ true)))))
    !! Some (str "general") = Some (str "BCDEFGHIJK").
Proof.
  refine (proj1 (proj2 (proj2 (proj2 (proj2 (proj2 (proj2 (proj2
            (sequential_calls_keep_last_key
               (default_llm (str "http://h:5000"))
               (fun _ => Unreachable) (fun _ => Unreachable)
               (fun j => j) (fun j => (j + 1)%nat) (str "Hi") (str "again")
               None None (Some (str "general")) (Store ∅ true) _ _))))))))).
  - reflexivity.
  - intros j Hj. lia.
Defined.

(** C8 as stated fails: the keys of two calls, one after the other, are the
    same when the random source repeats itself. *)
Lemma sequential_keys_can_coincide :
  ~ (forall (self : KoboldApiLLM) (net1 net2 : network)
            (draw1 draw2 : nat -> nat) (prompt1 prompt2 : pystr)
            (stop1 stop2 : option (list pystr)) (channel_id : option pystr)
            (s : store) (key1 key2 : pystr),
        is_koboldcpp s = true ->
        (forall j, (j < 10)%nat -> (draw1 j < 36)%nat /\ (draw2 j < 36)%nat) ->
        EvSetGenkey channel_id key1
          ∈ trace (_acall self net1 draw1 prompt1 stop1 channel_id s) ->
        EvSetGenkey channel_id key2
          ∈ trace (_acall self net2 draw2 prompt2 stop2 channel_id
                     (final (_acall self net1 draw1 prompt1 stop1 channel_id s))) ->
        key1 <> key2).
Proof.
  intros H.
  refine (H (default_llm (str "http://h:5000"))
            (fun _ => Unreachable) (fun _ => Unreachable)
            (fun _ => 7%nat) (fun _ => 7%nat) (str "Hi") (str "again") None None
            (Some (str "general")) (Store ∅ true)
            (str "HHHHHHHHHH") (str "HHHHHHHHHH") eq_refl _ _ _ eq_refl).
  - intros j Hj. lia.
  - rewrite _acall_extended by done. simpl. set_solver.
  - rewrite (_acall_extended _ _ _ _ _ _ (Store ∅ true)) by done.
    rewrite _acall_extended by done. simpl. set_solver.
Qed.

(** ** Cancellation *)

(** Whatever the registry and the server do, [_stop] returns normally. *)
Lemma _stop_never_raises (self : KoboldApiLLM) (net : network)
    (channel_id : option pystr) (s : store) :
  result (_stop self net channel_id s) = Ok tt
  /\ final (_stop self net channel_id s) = s.
Proof.
  unfold result, final, _stop. unfold_monad.
  run_method; done.
Qed.

(** C2: for a channel without an entry in the registry, cancellation returns
    normally; it sends no request, leaves the registry as it is, and reports
    the failure by printing the exception that the unbound local caused. *)
Theorem stop_unregistered_channel (self : KoboldApiLLM) (net : network)
    (channel_id : option pystr) (s : store) :
  genkeys s !! channel_id = None ->
  _stop self net channel_id s
  = (Ok tt, s, [EvPrint (MsgAbortException (UnboundLocalError (str "json")))]).
Proof.
  intros Hnone. unfold _stop. unfold_monad.
  cbn -[str]. by rewrite Hnone.
Qed.

Lemma stop_unregistered_witness :
  _stop (default_llm (str "http://h:5000")) (fun _ => Unreachable)
    (Some (str "general")) initial_store
  = (Ok tt, initial_store,
     [EvPrint (MsgAbortException (UnboundLocalError (str "json")))]).
Proof.
  apply (stop_unregistered_channel (default_llm (str "http://h:5000"))
           (fun _ => Unreachable) (Some (str "general")) initial_store).
  apply lookup_empty.
Defined.

(** ** The dialect probe *)

Section Probe.
Context (builtin_float : json -> res float) (self : KoboldApiLLM)
  (net : network).

Let extended_probe : request :=
  Request GET (clean_url (endpoint self) ++ str "/api/extra/version") None.
Let basic_probe : request :=
  Request GET (clean_url (endpoint self) ++ str "/api/v1/version") None.

(** The extended endpoint answers with a version that [float] accepts. *)
Lemma check_version_extended (r : response) (j version : json) (f : float)
    (s : store) :
  net extended_probe = Responded r ->
  passes (status_code r) = true ->
  json_body r = Some j ->
  py_getitem_str j (str "version") = Ok version ->
  builtin_float version = Ok f ->
  check_version builtin_float self net s
  = (Ok f, Store (genkeys s) true,
     [EvRequest extended_probe; EvSetKoboldcpp true; EvPrint MsgKoboldcpp]).
Proof.
  intros Hnet Hst Hj Hv Hf. unfold check_version. unfold_monad.
  unfold passes in Hst. apply negb_true_iff in Hst.
  fold extended_probe. rewrite Hnet, Hst, Hj. cbn -[str].
  by rewrite Hv, Hf.
Qed.

(** The extended endpoint gives no usable response at all, and the basic
    one answers. *)
Lemma check_version_basic (r : response) (j : json) (s : store) :
  (net extended_probe = Unreachable
   \/ exists r', net extended_probe = Responded r'
                 /\ (passes (status_code r') = false \/ json_body r' = None)) ->
  net basic_probe = Responded r ->
  passes (status_code r) = true ->
  json_body r = Some j ->
  check_version builtin_float self net s
  = (Ok 0%float, Store (genkeys s) false,
     [EvRequest extended_probe; EvRequest basic_probe;
      EvSetKoboldcpp false; EvPrint MsgKoboldAI]).
Proof.
  intros Hext Hnet Hst Hj. unfold check_version. unfold_monad.
  unfold passes in *. apply negb_true_iff in Hst.
  fold extended_probe basic_probe. rewrite Hnet, Hst, Hj.
  destruct Hext as [->|(r' & -> & [Hbad| Hnone])]; [done| |].
  - apply negb_false_iff in Hbad. by rewrite Hbad.
  - rewrite Hnone.
    by destruct ((400 <=? status_code r') && (status_code r' <? 600)).
Qed.

(** Neither endpoint can be reached. *)
Lemma check_version_unavailable (s : store) :
  net extended_probe = Unreachable ->
  net basic_probe = Unreachable ->
  check_version builtin_float self net s
  = (Raise (ValueError EndpointNotRunning), s,
     [EvRequest extended_probe; EvRequest basic_probe]).
Proof.
  intros Hext Hbasic. unfold check_version. unfold_monad.
  fold extended_probe basic_probe. by rewrite Hext, Hbasic.
Qed.
End Probe.

(** C5, where the code departs from it: the extended endpoint answers with
    status 200 and the JSON object [{}], which has no [version], and the
    basic endpoint answers with status 404.  The probe raises the error for
    an endpoint that runs neither server, and yet it leaves the dialect flag
    set: the flag is assigned before the version is read. *)
Theorem check_version_leaves_flag_set (builtin_float : json -> res float) :
  check_version builtin_float (default_llm (str "http://h:5000"))
    (fun q => if bool_decide (req_url q = str "http://h:5000/api/extra/version")
              then Responded (Response 200 (Some (JObj [])))
              else Responded (Response 404 None))
    initial_store
  = (Raise (ValueError EndpointNotRunning), Store ∅ true,
     [EvRequest (Request GET (str "http://h:5000/api/extra/version") None);
      EvSetKoboldcpp true;
      EvPrint MsgKoboldcpp;
      EvRequest (Request GET (str "http://h:5000/api/v1/version") None)]).
Proof. reflexivity. Qed.

(** ** Failures of a generation call *)

Section Failures.
Context (self : KoboldApiLLM) (net : network) (prompt : pystr)
  (stop : option (list pystr)) (s : store).

(** What the operations on payloads can raise. *)
Lemma py_in_raise (k : pystr) (v : json) (e : exn) :
  py_in k v = Raise e -> e = TypeError.
Proof. destruct v; simpl; congruence. Qed.

Lemma py_len_raise (v : json) (e : exn) :
  py_len v = Raise e -> e = TypeError.
Proof. destruct v; simpl; congruence. Qed.

Lemma py_getitem_str_raise (v : json) (k : pystr) (e : exn) :
  py_getitem_str v k = Raise e -> e = TypeError \/ e = KeyError k.
Proof.
  destruct v; simpl; try (intros [= <-]; by left).
  destruct (dict_get d k); intros [= <-]. by right.
Qed.

Lemma py_getitem_int_raise (v : json) (i : nat) (e : exn) :
  py_getitem_int v i = Raise e ->
  e = TypeError \/ e = IndexError \/ e = KeyErrorInt i.
Proof.
  destruct v; simpl; try (intros [= <-]; by left).
  - destruct (s0 !! i); intros [= <-]. by right; left.
  - destruct (l !! i); intros [= <-]. by right; left.
  - intros [= <-]. by right; right.
Qed.

Lemma py_strip_raise (v : json) (e : exn) :
  py_strip v = Raise e -> e = AttributeError.
Proof. destruct v; simpl; congruence. Qed.

Ltac raised :=
  repeat match goal with
    | H : py_in _ _ = Raise _ |- _ => apply py_in_raise in H
    | H : py_len _ = Raise _ |- _ => apply py_len_raise in H
    | H : py_getitem_str _ _ = Raise _ |- _ => apply py_getitem_str_raise in H
    | H : py_getitem_int _ _ = Raise _ |- _ => apply py_getitem_int_raise in H
    | H : py_strip _ = Raise _ |- _ => apply py_strip_raise in H
    end.

(** A status from 400 to 599 makes the blocking call raise the HTTP error. *)
Lemma _call_http_error (r : response) :
  net (generate_request self prompt stop) = Responded r ->
  result (_call self net prompt stop s) = Raise (HTTPError (status_code r))
  <-> passes (status_code r) = false.
Proof.
  intros Hnet. unfold result, _call, passes. unfold_monad.
  fold (generate_request self prompt stop). rewrite Hnet.
  destruct (_ && _); simpl; [done|].
  split; [|done].
  run_method; try congruence; intros [= ->]; raised; intuition discriminate.
Qed.

(** A JSON object without [results] makes it raise the error that carries
    the payload. *)
Lemma _call_missing_results (r : response) (d : dict) :
  net (generate_request self prompt stop) = Responded r ->
  passes (status_code r) = true ->
  json_body r = Some (JObj d) ->
  dict_get d (str "results") = None ->
  result (_call self net prompt stop s)
  = Raise (ValueError (UnexpectedResponseFormat (JObj d))).
Proof.
  intros Hnet Hst Hj Hres. unfold result, _call. unfold_monad.
  fold (generate_request self prompt stop).
  unfold passes in Hst. apply negb_true_iff in Hst.
  rewrite Hnet, Hst, Hj. cbn -[str]. rewrite Hres.
  by rewrite bool_decide_eq_false_2 by (by intros [? ?]).
Qed.

(** X14: the blocking call raises a [ValueError] of the module itself (the
    "Unexpected response format" error of the source, not an exception of
    the library that derives from [ValueError]) only for a payload that it
    received and that carries no text at [results[0].text], and the error
    then holds that very payload. *)
Lemma _call_value_error (m : value_error) :
  result (_call self net prompt stop s) = Raise (ValueError m) ->
  exists r j, net (generate_request self prompt stop) = Responded r
              /\ json_body r = Some j
              /\ m = UnexpectedResponseFormat j
              /\ generated_text j = None.
Proof.
  intros H.
  destruct (net (generate_request self prompt stop)) as [|cls|r] eqn:Hnet.
  { revert H. unfold result, _call. unfold_monad.
    fold (generate_request self prompt stop). by rewrite Hnet. }
  { revert H. unfold result, _call. unfold_monad.
    fold (generate_request self prompt stop). by rewrite Hnet. }
  destruct (passes (status_code r)) eqn:Hst.
  2:{ apply (_call_http_error r Hnet) in Hst. congruence. }
  destruct (json_body r) as [j|] eqn:Hj.
  2:{ revert H. unfold result, _call. unfold_monad.
      fold (generate_request self prompt stop).
      unfold passes in Hst. apply negb_true_iff in Hst.
      by rewrite Hnet, Hst, Hj. }
  exists r, j. split; [done|]. split; [done|]. split.
  - revert H. unfold result, _call. unfold_monad.
    fold (generate_request self prompt stop).
    unfold passes in Hst. apply negb_true_iff in Hst.
    rewrite Hnet, Hst, Hj.
    run_method; intros H; raised; destruct_or?; by simplify_eq.
  - destruct (generated_text j) as [raw|] eqn:Hraw; [|done].
    rewrite (_call_generated self net prompt stop r j raw s Hnet Hst Hj Hraw)
      in H.
    discriminate H.
Qed.
End Failures.

(** C6, where the code departs from it: the server answers with status 200
    and the payload [{"results": null}].  The payload lacks the text, but
    the call raises the type error of [len(None)] and not the error that
    carries the payload. *)
Theorem call_null_results_type_error (self : KoboldApiLLM) (prompt : pystr)
    (stop : option (list pystr)) (s : store) :
  generated_text (JObj [(str "results", JNull)]) = None
  /\ _call self
       (answers (Response 200 (Some (JObj [(str "results", JNull)]))))
       prompt stop s
     = (Raise TypeError, s, [EvRequest (generate_request self prompt stop)]).
Proof. split; reflexivity. Qed.

(** ** Further properties of the endpoint normalization *)

Lemma not_api_suffix_of_slash (base : pystr) :
  endswith (base ++ str "/") (str "/api") = false.
Proof.
  apply endswith_false. intros [k Hk].
  change (str "/api") with (str "/ap" ++ str "i") in Hk.
  rewrite app_assoc in Hk.
  apply app_inj_tail in Hk as [_ Hk]. discriminate Hk.
Qed.

(** X1: whatever the base URL is, adding "/api" or "/" to it and normalizing
    gives the base URL back, so the three ways of writing an endpoint lead to
    the same request URLs; and the normalized URL is always a prefix of the
    URL, shorter by at most four characters. *)
Theorem clean_url_undoes_suffix (base : pystr) :
  clean_url (base ++ str "/api") = base
  /\ clean_url (base ++ str "/") = base
  /\ clean_url base `prefix_of` base
  /\ (length base - 4 <= length (clean_url base) <= length base)%nat.
Proof.
  split; [|split; [|split]].
  - unfold clean_url.
    assert (endswith (base ++ str "/api") (str "/api") = true) as ->
      by (apply endswith_true; by exists base).
    by apply (slice_to_neg_app base (str "/api")).
  - unfold clean_url. rewrite not_api_suffix_of_slash.
    assert (endswith (base ++ str "/") (str "/") = true) as ->
      by (apply endswith_true; by exists base).
    by apply (slice_to_neg_app base (str "/")).
  - destruct (clean_url_cases base) as [H|[H|H]].
    + by exists (str "/api").
    + by exists (str "/").
    + rewrite <- H. done.
  - destruct (clean_url_cases base) as [H|[H|H]].
    + apply (f_equal length) in H. rewrite length_app in H.
      change (length (str "/api")) with 4%nat in H. lia.
    + apply (f_equal length) in H. rewrite length_app in H.
      change (length (str "/")) with 1%nat in H. lia.
    + rewrite <- H. lia.
Qed.

(** ** Further properties of the returned text *)

Section Trimmed.
Implicit Types s t q : pystr.

Lemma rstrip_prefix s : rstrip s `prefix_of` s.
Proof.
  induction s as [|c s IH]; [done|]. simpl.
  destruct (rstrip s) as [|d r] eqn:E.
  - destruct (is_space c); [apply prefix_nil|].
    apply (prefix_cons c [] s), prefix_nil.
  - by apply prefix_cons.
Qed.

Lemma slice_to_neg_prefix s n : slice_to_neg s n `prefix_of` s.
Proof.
  destruct n; [apply prefix_nil|]. simpl.
  exists (drop (length s - S n) s). by rewrite take_drop.
Qed.

Lemma lstrip_idemp s : lstrip (lstrip s) = lstrip s.
Proof.
  induction s as [|c s IH]; [done|]. simpl.
  destruct (is_space c) eqn:E; [done|]. simpl. by rewrite E.
Qed.

(** A prefix of a text without leading whitespace has none either. *)
Lemma lstrip_fixed_prefix s t : lstrip s = s -> t `prefix_of` s -> lstrip t = t.
Proof.
  intros Hs [k ->]. destruct t as [|c t]; [done|].
  simpl in *. destruct (is_space c) eqn:E; [|done].
  exfalso. clear -Hs.
  assert (forall u : pystr, (length (lstrip u) <= length u)%nat) as Hlen.
  { induction u as [|d u IH]; simpl; [lia|].
    destruct (is_space d); simpl; lia. }
  specialize (Hlen (t ++ k)). rewrite Hs in Hlen. simpl in Hlen. lia.
Qed.

(** What a round of the loop keeps: the text is a prefix of the text that the
    loop started with, and it has no whitespace at either end. *)
Lemma strip_sequence_keeps (whole : pystr) t q :
  t `prefix_of` whole /\ lstrip t = t /\ rstrip t = t ->
  strip_sequence t q `prefix_of` whole
  /\ lstrip (strip_sequence t q) = strip_sequence t q
  /\ rstrip (strip_sequence t q) = strip_sequence t q.
Proof.
  intros (Hp & Hl & Hr). unfold strip_sequence.
  destruct (endswith t q); [|done].
  assert (rstrip (slice_to_neg t (length q)) `prefix_of` t) as Hcut.
  { etrans; [apply rstrip_prefix|apply slice_to_neg_prefix]. }
  split; [by etrans|]. split.
  - by apply (lstrip_fixed_prefix t).
  - apply rstrip_idemp.
Qed.

Lemma strip_stop_keeps (whole : pystr) (sequences : list pystr) t :
  t `prefix_of` whole /\ lstrip t = t /\ rstrip t = t ->
  fold_left strip_sequence sequences t `prefix_of` whole
  /\ lstrip (fold_left strip_sequence sequences t)
     = fold_left strip_sequence sequences t
  /\ rstrip (fold_left strip_sequence sequences t)
     = fold_left strip_sequence sequences t.
Proof.
  revert t. induction sequences as [|q l IH]; intros t Ht; [done|].
  simpl. by apply IH, strip_sequence_keeps.
Qed.

Lemma strip_keeps s :
  strip s `prefix_of` strip s /\ lstrip (strip s) = strip s
  /\ rstrip (strip s) = strip s.
Proof.
  split; [done|]. split; [|apply rstrip_idemp].
  apply (lstrip_fixed_prefix (lstrip s)); [apply lstrip_idemp|].
  apply rstrip_prefix.
Qed.

(** Once the text is empty it stays empty. *)
Lemma strip_stop_nil (sequences : list pystr) :
  fold_left strip_sequence sequences [] = [].
Proof.
  induction sequences as [|q l IH]; [done|]. simpl.
  unfold strip_sequence at 2. destruct (endswith [] q); [|done].
  by destruct (length q).
Qed.
End Trimmed.

(** X2: whenever the server's payload carries a text, what either call mode
    returns is a prefix of that text after stripping, and it has no
    whitespace at its ends (stripping it again changes nothing), whatever the
    stop sequences are. *)
Theorem returned_text_trimmed (self : KoboldApiLLM) (draw : nat -> nat)
    (prompt : pystr) (stop : option (list pystr)) (channel_id : option pystr)
    (s : store) (r : response) (j : json) (raw : pystr) :
  status_code r < 400 ->
  json_body r = Some j ->
  generated_text j = Some raw ->
  exists text,
    result (_call self (answers r) prompt stop s) = Ok text
    /\ result (_acall self (answers r) draw prompt stop channel_id s) = Ok text
    /\ text `prefix_of` strip raw
    /\ strip text = text.
Proof.
  intros Hst Hj Hraw. exists (strip_stop stop (strip raw)).
  split.
  { by apply (_call_generated self (answers r) prompt stop r j raw s eq_refl
                (passes_below_400 _ Hst)). }
  split.
  { by apply (_acall_generated self (answers r) prompt stop draw channel_id
                r j raw s eq_refl). }
  assert (strip_stop stop (strip raw) `prefix_of` strip raw
          /\ lstrip (strip_stop stop (strip raw)) = strip_stop stop (strip raw)
          /\ rstrip (strip_stop stop (strip raw)) = strip_stop stop (strip raw))
    as (Hp & Hl & Hr).
  { destruct stop as [l|]; simpl; [|apply strip_keeps].
    apply strip_stop_keeps, strip_keeps. }
  split; [done|]. unfold strip at 1. by rewrite Hl.
Qed.

Lemma returned_text_trimmed_witness :
  exists text,
    result (_call (default_llm (str "http://h:5000"))
              (answers (Response 200 (Some (payload (str "  Hi there. You: ")))))
              (str "Hi") (Some [str "You:"]) initial_store) = Ok text
    /\ text `prefix_of` str "Hi there. You:".
Proof.
  destruct (returned_text_trimmed (default_llm (str "http://h:5000"))
              (fun _ => O) (str "Hi") (Some [str "You:"]) None initial_store
              (Response 200 (Some (payload (str "  Hi there. You: "))))
              (payload (str "  Hi there. You: ")) (str "  Hi there. You: ")
              ltac:(simpl; lia) eq_refl eq_refl) as (text & H1 & _ & H2 & _).
  exists text. split; [exact H1 | exact H2].
Defined.

(** X3: an empty string among the stop sequences empties the result: every
    text ends with the empty string, and cutting zero characters off with
    [text[:-0]] leaves nothing. *)
Theorem empty_stop_sequence_empties_text (self : KoboldApiLLM)
    (draw : nat -> nat) (prompt : pystr) (sequences : list pystr)
    (channel_id : option pystr) (s : store) (r : response) (j : json)
    (raw : pystr) :
  status_code r < 400 ->
  json_body r = Some j ->
  generated_text j = Some raw ->
  [] ∈ sequences ->
  result (_call self (answers r) prompt (Some sequences) s) = Ok []
  /\ result (_acall self (answers r) draw prompt (Some sequences) channel_id s)
     = Ok [].
Proof.
  intros Hst Hj Hraw Hin.
  rewrite (_call_generated self (answers r) prompt _ r j raw s eq_refl
             (passes_below_400 _ Hst) Hj Hraw).
  rewrite (_acall_generated self (answers r) prompt _ draw channel_id r j raw s
             eq_refl Hst Hj Hraw).
  apply list_elem_of_split in Hin as (pre & post & ->). simpl.
  rewrite fold_left_app. simpl.
  by rewrite strip_sequence_empty, strip_stop_nil.
Qed.

Lemma empty_stop_sequence_witness :
  result (_call (default_llm (str "http://h:5000"))
            (answers (Response 200 (Some (payload (str "Hello world.")))))
            (str "Hi") (Some [str "You:"; []]) initial_store)
  = Ok [].
Proof.
  refine (proj1 (empty_stop_sequence_empties_text
            (default_llm (str "http://h:5000")) (fun _ => O) (str "Hi")
            [str "You:"; []] None initial_store
            (Response 200 (Some (payload (str "Hello world."))))
            (payload (str "Hello world.")) (str "Hello world.") _ _ _ _)).
  - simpl. lia.
  - reflexivity.
  - reflexivity.
  - set_solver.
Defined.

(** ** Further properties of cancellation *)

(** X4: cancellation is advisory for every channel, registry and server: it
    returns normally and leaves the registry and the dialect flag as they
    are; it ends with exactly one printed message; and it sends a request
    exactly when the channel has a key, namely one POST to the abort URL whose
    body is that key under [genkey]. *)
Theorem stop_is_advisory (self : KoboldApiLLM) (net : network)
    (channel_id : option pystr) (s : store) :
  result (_stop self net channel_id s) = Ok tt
  /\ final (_stop self net channel_id s) = s
  /\ exists m,
       (genkeys s !! channel_id = None
        /\ trace (_stop self net channel_id s) = [EvPrint m])
       \/ (exists key, genkeys s !! channel_id = Some key
           /\ trace (_stop self net channel_id s)
              = [EvRequest (abort_request self key); EvPrint m]).
Proof.
  unfold result, final, trace, _stop, abort_request. unfold_monad.
  cbn -[str abort_url]. destruct (genkeys s !! channel_id) as [key|].
  - cbn -[str abort_url].
    destruct (net _) as [|cls|r]; cbn -[str abort_url].
    { split; [done|]. split; [done|]. eexists. right. by eexists. }
    { split; [done|]. split; [done|]. eexists. right. by eexists. }
    destruct (status_code r =? 200); cbn -[str abort_url].
    2:{ split; [done|]. split; [done|]. eexists. right. by eexists. }
    destruct (json_body r) as [j|]; cbn -[str abort_url].
    2:{ split; [done|]. split; [done|]. eexists. right. by eexists. }
    destruct (py_getitem_str j (str "success")) as [v|e]; cbn -[str abort_url].
    2:{ split; [done|]. split; [done|]. eexists. right. by eexists. }
    destruct (py_eq_True v); cbn -[str abort_url];
      (split; [done|]); (split; [done|]); eexists; right; by eexists.
  - cbn -[str abort_url]. split; [done|]. split; [done|]. eexists. by left.
Qed.

(** X5: for a channel with a registered key, the success message is printed
    exactly when the server answers the abort request with status 200 and a
    JSON body whose [success] compares equal to [True]; with any other status
    the body is not even decoded and the plain error message is printed; and
    when the server cannot be reached the exception is printed. *)
Theorem stop_reports_outcome (self : KoboldApiLLM) (net : network)
    (channel_id : option pystr) (s : store) (key : pystr) :
  genkeys s !! channel_id = Some key ->
  (trace (_stop self net channel_id s)
   = [EvRequest (abort_request self key); EvPrint (MsgAbortOk channel_id key)]
   <-> exists r j v,
         net (abort_request self key) = Responded r
         /\ status_code r = 200
         /\ json_body r = Some j
         /\ py_getitem_str j (str "success") = Ok v
         /\ py_eq_True v = true)
  /\ (forall r, net (abort_request self key) = Responded r ->
      status_code r <> 200 ->
      trace (_stop self net channel_id s)
      = [EvRequest (abort_request self key); EvPrint MsgAbortError])
  /\ (net (abort_request self key) = Unreachable ->
      trace (_stop self net channel_id s)
      = [EvRequest (abort_request self key);
         EvPrint (MsgAbortException ConnectionError)]).
Proof.
  intros Hkey. unfold trace, _stop, abort_request. unfold_monad.
  cbn -[str abort_url]. rewrite Hkey. cbn -[str abort_url].
  split; [|split].
  - destruct (net _) as [|cls|r]; cbn -[str abort_url].
    { split; [intros [=]|]. by intros (? & ? & ? & [=] & _). }
    { split; [intros [=]|]. by intros (? & ? & ? & [=] & _). }
    destruct (status_code r =? 200) eqn:Hst; cbn -[str abort_url].
    2:{ split; [intros [=]|]. intros (r' & ? & ? & [= <-] & H200 & _).
        apply Z.eqb_neq in Hst. done. }
    apply Z.eqb_eq in Hst.
    destruct (json_body r) as [j|] eqn:Hj; cbn -[str abort_url].
    2:{ split; [intros [=]|]. intros (r' & ? & ? & [= <-] & _ & Hj' & _).
        congruence. }
    destruct (py_getitem_str j (str "success")) as [v|e] eqn:Hv;
      cbn -[str abort_url].
    2:{ split; [intros [=]|].
        intros (r' & j' & ? & [= <-] & _ & Hj' & Hv' & _). congruence. }
    destruct (py_eq_True v) eqn:Ht; cbn -[str abort_url].
    + split; [|done]. intros _. by exists r, j, v.
    + split; [intros [=]|].
      intros (r' & j' & v' & [= <-] & _ & Hj' & Hv' & Ht'). congruence.
  - intros r -> Hst. cbn -[str abort_url].
    by assert ((status_code r =? 200) = false) as -> by by apply Z.eqb_neq.
  - by intros ->.
Qed.

Lemma stop_reports_outcome_witness :
  trace (_stop (default_llm (str "http://h:5000"))
           (answers (Response 200
                       (Some (JObj [(str "success", JBool true)]))))
           (Some (str "general"))
           (Store (<[Some (str "general") := str "ABCDEFGHIJ"]> ∅) true))
  = [EvRequest (abort_request (default_llm (str "http://h:5000"))
                  (str "ABCDEFGHIJ"));
     EvPrint (MsgAbortOk (Some (str "general")) (str "ABCDEFGHIJ"))].
Proof.
  apply (proj1 (stop_reports_outcome (default_llm (str "http://h:5000"))
                  (answers (Response 200
                              (Some (JObj [(str "success", JBool true)]))))
                  (Some (str "general"))
                  (Store (<[Some (str "general") := str "ABCDEFGHIJ"]> ∅) true)
                  (str "ABCDEFGHIJ") (lookup_insert_eq _ _ _))).
  by exists (Response 200 (Some (JObj [(str "success", JBool true)]))),
            (JObj [(str "success", JBool true)]), (JBool true).
Defined.

(** ** Further properties of the dialect probe *)

Section ProbeFacts.
Context (builtin_float : json -> res float) (self : KoboldApiLLM)
  (net : network).

(** X6: the probe never touches the registry; the only exception that
    leaves it is the error for an endpoint that runs neither server; it asks
    the extended endpoint first and the basic endpoint only after that, if at
    all; and what it returns or raises does not depend on the registry or on
    the dialect flag it starts from. *)
Theorem check_version_frame (s : store) :
  genkeys (final (check_version builtin_float self net s)) = genkeys s
  /\ (forall e, result (check_version builtin_float self net s) = Raise e ->
                e = ValueError EndpointNotRunning)
  /\ (requests_of (trace (check_version builtin_float self net s))
      = [extended_version_request self]
      \/ requests_of (trace (check_version builtin_float self net s))
         = [extended_version_request self; basic_version_request self])
  /\ (forall s', result (check_version builtin_float self net s')
                 = result (check_version builtin_float self net s)).
Proof.
  unfold result, final, trace, check_version, extended_version_request,
    basic_version_request. unfold_monad.
  destruct (net {| req_method := GET;
                   req_url := clean_url (endpoint self) ++ str "/api/extra/version";
                   req_json := None |}) as [|cls1|r1];
  destruct (net {| req_method := GET;
                   req_url := clean_url (endpoint self) ++ str "/api/v1/version";
                   req_json := None |}) as [|cls2|r2];
  run_method;
    (split; [done|]); (split; [intros ? [=]; done|]);
    (split; [by (left + right)|]); done.
Qed.

(** X7: when the probe returns, the flag tells which endpoint answered: it
    is set only if the extended endpoint gave a status that passes, a JSON
    body, and in it a [version] that [float] accepts, which is the value
    returned; otherwise the flag is unset, the value is 0.0, and the basic
    endpoint gave a status that passes and a JSON body. *)
Theorem check_version_return (s : store) (f : float) :
  result (check_version builtin_float self net s) = Ok f ->
  (is_koboldcpp (final (check_version builtin_float self net s)) = true
   /\ exists r j version,
        net (extended_version_request self) = Responded r
        /\ passes (status_code r) = true
        /\ json_body r = Some j
        /\ py_getitem_str j (str "version") = Ok version
        /\ builtin_float version = Ok f)
  \/ (is_koboldcpp (final (check_version builtin_float self net s)) = false
      /\ f = 0%float
      /\ exists r j,
           net (basic_version_request self) = Responded r
           /\ passes (status_code r) = true
           /\ json_body r = Some j).
Proof.
  unfold result, final, check_version, extended_version_request,
    basic_version_request, passes. unfold_monad.
  destruct (net {| req_method := GET;
                   req_url := clean_url (endpoint self) ++ str "/api/extra/version";
                   req_json := None |}) as [|cls1|r1];
  destruct (net {| req_method := GET;
                   req_url := clean_url (endpoint self) ++ str "/api/v1/version";
                   req_json := None |}) as [|cls2|r2];
  run_method; intros [= <-];
    solve [ left; split; [done|]; eexists _, _, _;
            repeat split; try eassumption; try done;
            by apply negb_true_iff
          | right; split; [done|]; split; [done|]; eexists _, _;
            repeat split; try eassumption; try done;
            by apply negb_true_iff ].
Qed.

(** X8: when the basic endpoint gives a status that passes and a JSON body,
    the probe does not raise, whatever the extended endpoint does. *)
Theorem check_version_basic_healthy (s : store) (r : response) (j : json) :
  net (basic_version_request self) = Responded r ->
  passes (status_code r) = true ->
  json_body r = Some j ->
  exists f, result (check_version builtin_float self net s) = Ok f.
Proof.
  intros Hnet Hst Hj.
  unfold result, check_version, basic_version_request in *. unfold_monad.
  unfold passes in Hst. apply negb_true_iff in Hst.
  rewrite Hnet, Hst, Hj.
  destruct (net _) as [|cls1|r1]; run_method; by eexists.
Qed.
End ProbeFacts.

Lemma check_version_return_witness :
  is_koboldcpp
    (final (check_version (fun _ => Ok 1.5%float)
              (default_llm (str "http://h:5000"))
              (answers (Response 200
                          (Some (JObj [(str "version", JStr (str "1.5"))]))))
              initial_store)) = true.
Proof.
  destruct (check_version_return (fun _ => Ok 1.5%float)
              (default_llm (str "http://h:5000"))
              (answers (Response 200
                          (Some (JObj [(str "version", JStr (str "1.5"))]))))
              initial_store 1.5%float eq_refl) as [[H _]|[H _]].
  - exact H.
  - discriminate H.
Defined.

Lemma check_version_basic_healthy_witness :
  exists f,
    result (check_version (fun _ => Raise TypeError)
              (default_llm (str "http://h:5000"))
              (fun q => if bool_decide
                             (req_url q = str "http://h:5000/api/v1/version")
                        then Responded (Response 200 (Some (JObj [])))
                        else Unreachable)
              initial_store) = Ok f.
Proof.
  apply (check_version_basic_healthy (fun _ => Raise TypeError)
           (default_llm (str "http://h:5000"))
           (fun q => if bool_decide
                          (req_url q = str "http://h:5000/api/v1/version")
                     then Responded (Response 200 (Some (JObj [])))
                     else Unreachable)
           initial_store (Response 200 (Some (JObj []))) (JObj []));
    reflexivity.
Defined.

Lemma _call_value_error_witness :
  exists r j,
    answers (Response 200 (Some (JObj [])))
      (generate_request (default_llm (str "http://h:5000")) (str "Hi") None)
    = Responded r
    /\ json_body r = Some j
    /\ UnexpectedResponseFormat (JObj []) = UnexpectedResponseFormat j
    /\ generated_text j = None.
Proof.
  apply (_call_value_error (default_llm (str "http://h:5000"))
           (answers (Response 200 (Some (JObj [])))) (str "Hi") None
           initial_store (UnexpectedResponseFormat (JObj []))).
  reflexivity.
Defined.

(** ** Further properties of the generation calls *)

(** X9: the non-blocking call never changes the dialect flag and never
    changes what the registry holds for another channel; with the flag unset
    it leaves the whole store as it is; and it sends exactly one request. *)
Theorem acall_frame (self : KoboldApiLLM) (net : network) (draw : nat -> nat)
    (prompt : pystr) (stop : option (list pystr)) (channel_id : option pystr)
    (s : store) :
  is_koboldcpp (final (_acall self net draw prompt stop channel_id s))
  = is_koboldcpp s
  /\ (forall other, other <> channel_id ->
      genkeys (final (_acall self net draw prompt stop channel_id s)) !! other
      = genkeys s !! other)
  /\ (is_koboldcpp s = false ->
      final (_acall self net draw prompt stop channel_id s) = s)
  /\ requests_of (trace (_acall self net draw prompt stop channel_id s))
     = [sent self draw prompt stop s].
Proof.
  unfold sent. destruct (is_koboldcpp s) eqn:Hk.
  - rewrite (_acall_extended self net prompt stop draw channel_id s Hk).
    unfold final, trace. simpl.
    split; [done|]. split; [|done].
    intros other Hne. by rewrite lookup_insert_ne.
  - rewrite (_acall_basic self net prompt stop draw channel_id s Hk).
    unfold final, trace. simpl. by rewrite Hk.
Qed.

(** For a registered key, cancellation sends the abort request with it. *)
Lemma _stop_registered_request (self : KoboldApiLLM) (net : network)
    (channel_id : option pystr) (s : store) (key : pystr) :
  genkeys s !! channel_id = Some key ->
  requests_of (trace (_stop self net channel_id s)) = [abort_request self key].
Proof.
  intros Hkey. unfold trace, _stop, abort_request. unfold_monad.
  cbn -[str abort_url]. rewrite Hkey. run_method; done.
Qed.

(** Without a registered key, it sends nothing. *)
Lemma _stop_unregistered_request (self : KoboldApiLLM) (net : network)
    (channel_id : option pystr) (s : store) :
  genkeys s !! channel_id = None ->
  requests_of (trace (_stop self net channel_id s)) = [].
Proof.
  intros Hnone. unfold trace, _stop. unfold_monad.
  cbn -[str]. by rewrite Hnone.
Qed.

(** X10: with the dialect flag set, cancelling a channel after a
    non-blocking call for it sends the abort request with the same key that
    the generate request carried under [genkey], whether the call returned a
    text or raised. *)
Theorem stop_after_acall_sends_same_key (self : KoboldApiLLM)
    (net1 net2 : network) (draw : nat -> nat) (prompt : pystr)
    (stop : option (list pystr)) (channel_id : option pystr) (s : store) :
  is_koboldcpp s = true ->
  exists d key,
    requests_of (trace (_acall self net1 draw prompt stop channel_id s))
    = [Request POST (generate_url self) (Some (JObj d))]
    /\ dict_get d (str "genkey") = Some (JStr key)
    /\ requests_of
         (trace (_stop self net2 channel_id
                   (final (_acall self net1 draw prompt stop channel_id s))))
       = [abort_request self key].
Proof.
  intros Hk.
  exists (dict_set (_get_parameters self prompt stop) (str "genkey")
            (JStr (fresh_genkey draw))), (fresh_genkey draw).
  rewrite (_acall_extended self net1 prompt stop draw channel_id s Hk).
  unfold final, trace at 1. simpl.
  split; [done|]. split; [apply dict_get_set_eq|].
  apply _stop_registered_request. simpl. apply lookup_insert_eq.
Qed.

Lemma stop_after_acall_witness :
  exists d key,
    requests_of (trace (_acall (default_llm (str "http://h:5000"))
                          (fun _ => Unreachable) (fun j => j) (str "Hi") None
                          (Some (str "general")) (Store ∅ true)))
    = [Request POST (generate_url (default_llm (str "http://h:5000")))
         (Some (JObj d))]
    /\ dict_get d (str "genkey") = Some (JStr key)
    /\ requests_of
         (trace (_stop (default_llm (str "http://h:5000"))
                   (fun _ => Unreachable) (Some (str "general"))
                   (final (_acall (default_llm (str "http://h:5000"))
                             (fun _ => Unreachable) (fun j => j) (str "Hi")
                             None (Some (str "general")) (Store ∅ true)))))
       = [abort_request (default_llm (str "http://h:5000")) key].
Proof.
  exact (stop_after_acall_sends_same_key (default_llm (str "http://h:5000"))
           (fun _ => Unreachable) (fun _ => Unreachable) (fun j => j)
           (str "Hi") None (Some (str "general")) (Store ∅ true) eq_refl).
Defined.

(** X11: the blocking call never registers a key, and neither does the
    non-blocking call while the dialect flag is unset: cancelling a channel
    that had no key before such a call sends nothing to the server. *)
Theorem stop_after_unkeyed_call_sends_nothing (self : KoboldApiLLM)
    (net1 net2 : network) (draw : nat -> nat) (prompt : pystr)
    (stop : option (list pystr)) (channel_id : option pystr) (s : store) :
  genkeys s !! channel_id = None ->
  requests_of
    (trace (_stop self net2 channel_id
              (final (_call self net1 prompt stop s)))) = []
  /\ (is_koboldcpp s = false ->
      requests_of
        (trace (_stop self net2 channel_id
                  (final (_acall self net1 draw prompt stop channel_id s))))
      = []).
Proof.
  intros Hnone. split.
  - rewrite (_call_frame self net1 prompt stop s). unfold final. simpl.
    by apply _stop_unregistered_request.
  - intros Hk.
    rewrite (_acall_basic self net1 prompt stop draw channel_id s Hk).
    unfold final. simpl. by apply _stop_unregistered_request.
Qed.

Lemma stop_after_unkeyed_call_witness :
  requests_of
    (trace (_stop (default_llm (str "http://h:5000")) (fun _ => Unreachable)
              (Some (str "general"))
              (final (_call (default_llm (str "http://h:5000"))
                        (answers (Response 200 (Some (payload (str "Hello")))))
                        (str "Hi") None initial_store)))) = [].
Proof.
  exact (proj1 (stop_after_unkeyed_call_sends_nothing
                  (default_llm (str "http://h:5000"))
                  (answers (Response 200 (Some (payload (str "Hello")))))
                  (fun _ => Unreachable) (fun _ => O) (str "Hi") None
                  (Some (str "general")) initial_store (lookup_empty _))).
Defined.

(** X12: every way in which the blocking call can fail.  An exception that
    the call of [requests.post] itself raises is passed on as it is: the
    connection error, or any other exception of the library.  Once [post]
    has given a response object, the call raises the HTTP error of
    [raise_for_status] when the status is from 400 to 599; the exception of
    [response.json()] when that raises; and for a decoded payload either the
    [ValueError] of the module that holds the payload, a [TypeError], an
    [AttributeError], or the [KeyError] of the index 0.  The code after
    [post] never raises an [IndexError], a [KeyError] for "results", "text"
    or any other string, or an [UnboundLocalError]. *)
Theorem call_exceptions (self : KoboldApiLLM) (net : network) (prompt : pystr)
    (stop : option (list pystr)) (s : store) (e : exn) :
  result (_call self net prompt stop s) = Raise e ->
  (net (generate_request self prompt stop) = Unreachable
   /\ e = ConnectionError)
  \/ (exists cls, net (generate_request self prompt stop) = Raised cls
                  /\ e = LibraryError cls)
  \/ exists r, net (generate_request self prompt stop) = Responded r
       /\ ((e = HTTPError (status_code r) /\ 400 <= status_code r < 600)
           \/ (json_body r = None /\ e = JSONDecodeError)
           \/ (exists j, json_body r = Some j
                         /\ (e = ValueError (UnexpectedResponseFormat j)
                             \/ e = TypeError
                             \/ e = AttributeError
                             \/ e = KeyErrorInt 0))).
Proof.
  unfold result, _call. unfold_monad.
  fold (generate_request self prompt stop).
  destruct (net (generate_request self prompt stop)) as [|cls|r] eqn:Hnet;
    cbn -[str strip];
    [intros [= <-]; by left | intros [= <-]; right; left; by exists cls |].
  intros H. right; right. exists r. split; [done|]. revert H.
  destruct ((400 <=? status_code r) && (status_code r <? 600)) eqn:Hst;
    cbn -[str strip].
  { intros [= <-]. left. split; [done|].
    apply andb_true_iff in Hst as [H1 H2].
    apply Z.leb_le in H1. apply Z.ltb_lt in H2. lia. }
  destruct (json_body r) as [j|] eqn:Hj; cbn -[str strip];
    [|intros [= <-]; by right; left].
  intros H. right; right. exists j. split; [done|]. revert H.
  unfold py_in, py_getitem_str, py_len, py_getitem_int, py_strip.
  repeat (run_method;
          try match goal with
              | |- context [existsb ?f ?l] => destruct (existsb f l) eqn:?
              end);
    intros H; simplify_eq;
    try (by left); try (by right; left); try (by right; right; left);
    try (by right; right; right);
    exfalso;
    match goal with
    | H0 : ?l !! 0%nat = None, H1 : (0 <? Z.of_nat (length ?l)) = true |- _ =>
        destruct l; [discriminate H1 | discriminate H0]
    end.
Qed.

Lemma call_exceptions_witness :
  (answers (Response 503 None)
     (generate_request (default_llm (str "http://h:5000")) (str "Hi") None)
   = Unreachable /\ HTTPError 503 = ConnectionError)
  \/ (exists cls,
        answers (Response 503 None)
          (generate_request (default_llm (str "http://h:5000")) (str "Hi") None)
        = Raised cls
        /\ HTTPError 503 = LibraryError cls)
  \/ exists r,
       answers (Response 503 None)
         (generate_request (default_llm (str "http://h:5000")) (str "Hi") None)
       = Responded r
       /\ ((HTTPError 503 = HTTPError (status_code r)
            /\ 400 <= status_code r < 600)
           \/ (json_body r = None /\ HTTPError 503 = JSONDecodeError)
           \/ (exists j, json_body r = Some j
                         /\ (HTTPError 503 = ValueError (UnexpectedResponseFormat j)
                             \/ HTTPError 503 = TypeError
                             \/ HTTPError 503 = AttributeError
                             \/ HTTPError 503 = KeyErrorInt 0))).
Proof.
  apply (call_exceptions (default_llm (str "http://h:5000"))
           (answers (Response 503 None)) (str "Hi") None initial_store
           (HTTPError 503)).
  reflexivity.
Defined.

(** X13: a JSON object that has no [results], or whose [results] is an
    empty array, or whose [results] starts with an object without [text],
    makes both call modes raise the [ValueError] that holds the payload. *)
Theorem malformed_payload_raises (self : KoboldApiLLM) (draw : nat -> nat)
    (prompt : pystr) (stop : option (list pystr)) (channel_id : option pystr)
    (s : store) (r : response) (d : dict) :
  status_code r < 400 ->
  json_body r = Some (JObj d) ->
  dict_get d (str "results") = None
  \/ dict_get d (str "results") = Some (JArr [])
  \/ (exists first rest,
        dict_get d (str "results") = Some (JArr (JObj first :: rest))
        /\ dict_get first (str "text") = None) ->
  result (_call self (answers r) prompt stop s)
  = Raise (ValueError (UnexpectedResponseFormat (JObj d)))
  /\ result (_acall self (answers r) draw prompt stop channel_id s)
     = Raise (ValueError (UnexpectedResponseFormat (JObj d))).
Proof.
  intros Hst Hj Hshape.
  assert ((400 <=? status_code r) = false) as Hlo by (apply Z.leb_gt; lia).
  unfold result, _call, _acall, answers. unfold_monad.
  destruct (is_koboldcpp s);
    cbn -[str strip random_choices _get_parameters dict_set generate_url];
    rewrite Hlo, Hj;
    cbn -[str strip random_choices _get_parameters dict_set generate_url];
    destruct Hshape as [Hres|[Hres|(first & rest & Hres & Htext)]];
    rewrite Hres;
    cbn -[str strip random_choices _get_parameters dict_set generate_url];
    try rewrite Htext;
    try (rewrite bool_decide_eq_false_2 by (by intros [? ?]));
    done.
Qed.

Lemma malformed_payload_witness :
  result (_call (default_llm (str "http://h:5000"))
            (answers (Response 200
                        (Some (JObj [(str "results", JArr [])]))))
            (str "Hi") None initial_store)
  = Raise (ValueError (UnexpectedResponseFormat
                         (JObj [(str "results", JArr [])]))).
Proof.
  refine (proj1 (malformed_payload_raises (default_llm (str "http://h:5000"))
            (fun _ => O) (str "Hi") None None initial_store
            (Response 200 (Some (JObj [(str "results", JArr [])])))
            [(str "results", JArr [])] _ eq_refl _)).
  - simpl. lia.
  - right; left. reflexivity.
Defined.

(** Case analysis on the decoded payload, down to the values that the shape
    check looks at. *)
Ltac split_payload :=
  unfold py_in, py_getitem_str, py_len, py_getitem_int, py_strip;
  repeat (run_method;
          try match goal with
              | |- context [existsb ?f ?l] => destruct (existsb f l) eqn:?
              end).

(** X15: the blocking call returns a text only if the server answered with
    a status that passes and a payload that has a string at
    [results[0].text]; the text returned is then that string, stripped and
    cut at the stop sequences. *)
Theorem call_returns_generated_text (self : KoboldApiLLM) (net : network)
    (prompt : pystr) (stop : option (list pystr)) (s : store) (text : pystr) :
  result (_call self net prompt stop s) = Ok text ->
  exists r j raw,
    net (generate_request self prompt stop) = Responded r
    /\ passes (status_code r) = true
    /\ json_body r = Some j
    /\ generated_text j = Some raw
    /\ text = strip_stop stop (strip raw).
Proof.
  unfold result, _call. unfold_monad.
  fold (generate_request self prompt stop).
  destruct (net (generate_request self prompt stop)) as [|cls|r] eqn:Hnet;
    cbn -[str strip]; [intros [=]|intros [=]|].
  unfold passes.
  destruct ((400 <=? status_code r) && (status_code r <? 600)) eqn:Hst;
    cbn -[str strip]; [intros [=]|].
  destruct (json_body r) as [j|] eqn:Hj; cbn -[str strip]; [|intros [=]].
  intros H.
  assert (exists raw, generated_text j = Some raw
                      /\ text = strip_stop stop (strip raw)) as (raw & ? & ?);
    [|exists r, j, raw; rewrite Hst; repeat split; assumption || reflexivity].
  revert H. unfold generated_text.
  split_payload; intros H; simplify_eq/=; try congruence; try (by eexists).
Qed.

Lemma call_returns_generated_text_witness :
  exists r j raw,
    answers (Response 200 (Some (payload (str " Hello "))))
      (generate_request (default_llm (str "http://h:5000")) (str "Hi") None)
    = Responded r
    /\ passes (status_code r) = true
    /\ json_body r = Some j
    /\ generated_text j = Some raw
    /\ str "Hello" = strip_stop None (strip raw).
Proof.
  apply (call_returns_generated_text (default_llm (str "http://h:5000"))
           (answers (Response 200 (Some (payload (str " Hello ")))))
           (str "Hi") None initial_store (str "Hello")).
  reflexivity.
Defined.

(** X16: the same for the non-blocking call, whose request depends on the
    dialect flag and whose status check lets only statuses below 400
    through. *)
Theorem acall_returns_generated_text (self : KoboldApiLLM) (net : network)
    (draw : nat -> nat) (prompt : pystr) (stop : option (list pystr))
    (channel_id : option pystr) (s : store) (text : pystr) :
  result (_acall self net draw prompt stop channel_id s) = Ok text ->
  exists r j raw,
    net (sent self draw prompt stop s) = Responded r
    /\ status_code r < 400
    /\ json_body r = Some j
    /\ generated_text j = Some raw
    /\ text = strip_stop stop (strip raw).
Proof.
  unfold result, _acall, sent, keyed_request, generate_request, fresh_genkey.
  unfold_monad.
  destruct (is_koboldcpp s);
    cbn -[str strip random_choices _get_parameters dict_set generate_url];
    (destruct (net _) as [|cls|r] eqn:Hnet;
       cbn -[str strip random_choices _get_parameters dict_set generate_url];
       [intros [=]|intros [=]|]);
    (destruct (400 <=? status_code r) eqn:Hst;
       cbn -[str strip random_choices _get_parameters dict_set generate_url];
       [intros [=]|]);
    apply Z.leb_gt in Hst;
    (destruct (json_body r) as [j|] eqn:Hj;
       cbn -[str strip random_choices _get_parameters dict_set generate_url];
       [|intros [=]]);
    intros H;
    (assert (exists raw, generated_text j = Some raw
                         /\ text = strip_stop stop (strip raw))
       as (raw & ? & ?);
     [|exists r, j, raw; repeat split; assumption || reflexivity || lia]);
    revert H; unfold generated_text;
    split_payload; intros H; simplify_eq/=; try congruence; try (by eexists).
Qed.

Lemma acall_returns_generated_text_witness :
  exists r j raw,
    answers (Response 200 (Some (payload (str " Hello "))))
      (sent (default_llm (str "http://h:5000")) (fun _ => O) (str "Hi") None
         (Store ∅ true))
    = Responded r
    /\ status_code r < 400
    /\ json_body r = Some j
    /\ generated_text j = Some raw
    /\ str "Hello" = strip_stop None (strip raw).
Proof.
  apply (acall_returns_generated_text (default_llm (str "http://h:5000"))
           (answers (Response 200 (Some (payload (str " Hello ")))))
           (fun _ => O) (str "Hi") None (Some (str "general"))
           (Store ∅ true) (str "Hello")).
  reflexivity.
Defined.

(** ** Further properties of the request body *)

(** X17: in the body that [_get_parameters] builds every key occurs once;
    it has sixteen entries, or seventeen with the stop sequences; it never
    has a [genkey]; and adding the generation key appends one entry, again
    with every key occurring once, under which the key is found. *)
Theorem request_body_keys (self : KoboldApiLLM) (prompt : pystr)
    (stop : option (list pystr)) (key : pystr) :
  NoDup (fst <$> _get_parameters self prompt stop)
  /\ length (_get_parameters self prompt stop)
     = (if truthy stop then 17 else 16)%nat
  /\ dict_get (_get_parameters self prompt stop) (str "genkey") = None
  /\ NoDup (fst <$> dict_set (_get_parameters self prompt stop)
                      (str "genkey") (JStr key))
  /\ length (dict_set (_get_parameters self prompt stop) (str "genkey")
               (JStr key))
     = S (length (_get_parameters self prompt stop))
  /\ dict_get (dict_set (_get_parameters self prompt stop) (str "genkey")
                 (JStr key)) (str "genkey") = Some (JStr key).
Proof.
  destruct stop as [[|q l]|];
    (split; [apply (bool_decide_unpack _); by vm_compute|]);
    (split; [reflexivity|]); (split; [reflexivity|]);
    (split; [apply (bool_decide_unpack _); by vm_compute|]);
    (split; reflexivity).
Qed.

(** ** The dialect flag after a failed probe *)

(** X18: when the probe raises, the registry is as before, and the dialect
    flag is set afterwards exactly if it was set before or the extended
    endpoint gave a status that passes and a JSON body: the flag is assigned
    as soon as that body is decoded, and a failure after that point does not
    reset it. *)
Theorem check_version_failure_flag (builtin_float : json -> res float)
    (self : KoboldApiLLM) (net : network) (s : store) (e : exn) :
  result (check_version builtin_float self net s) = Raise e ->
  genkeys (final (check_version builtin_float self net s)) = genkeys s
  /\ (is_koboldcpp (final (check_version builtin_float self net s)) = true
      <-> is_koboldcpp s = true
          \/ exists r j,
               net (extended_version_request self) = Responded r
               /\ passes (status_code r) = true
               /\ json_body r = Some j).
Proof.
  unfold result, final, check_version, extended_version_request,
    basic_version_request, passes. unfold_monad.
  destruct (net {| req_method := GET;
                   req_url := clean_url (endpoint self) ++ str "/api/extra/version";
                   req_json := None |}) as [|cls1|r1];
  destruct (net {| req_method := GET;
                   req_url := clean_url (endpoint self) ++ str "/api/v1/version";
                   req_json := None |}) as [|cls2|r2];
  run_method; intros [= <-]; (split; [done|]);
    (split;
       [ intros Hflag; first
           [ by left
           | right; eexists _, _; repeat split; try eassumption; try done;
             by apply negb_true_iff ]
       | intros [Hflag|(? & ? & Hr & Hp & Hj)]; simplify_eq/=; try done;
         try (apply negb_true_iff in Hp; congruence) ]).
Qed.

Lemma check_version_failure_flag_witness :
  is_koboldcpp
    (final (check_version (fun _ => Raise TypeError)
              (default_llm (str "http://h:5000")) (fun _ => Unreachable)
              initial_store)) = true
  <-> is_koboldcpp initial_store = true
      \/ exists r j,
           (fun _ : request => Unreachable)
             (extended_version_request (default_llm (str "http://h:5000")))
           = Responded r
           /\ passes (status_code r) = true
           /\ json_body r = Some j.
Proof.
  exact (proj2 (check_version_failure_flag (fun _ => Raise TypeError)
                  (default_llm (str "http://h:5000")) (fun _ => Unreachable)
                  initial_store (ValueError EndpointNotRunning) eq_refl)).
Defined.
